(** * crypto-trading-turkninja: the ML signal classifier and its training script

    A shallow embedding of [ml_service/signal_classifier.py] and
    [ml_service/train_model.py].  Python's [float] is IEEE 754 binary64, which
    is what Rocq's primitive [float] is, so sums such as [0.5 + 0.1 + 0.15] are
    computed here exactly as CPython computes them.  Exceptions are values of a
    sum type; the process-wide [model], the environment and numpy's global
    random state are passed explicitly.  Logging is left out. *)

From Stdlib Require Import Floats ZArith Ascii String DecimalString List Bool Lia.
Import ListNotations.

Set Warnings "-inexact-float".

Open Scope string_scope.
Open Scope list_scope.
Open Scope float_scope.

(** ** Python values *)

Module Py.

(** Python's [a > b] and [a >= b] on floats (IEEE: false when either is NaN). *)
Definition gtb (a b : float) : bool := b <? a.
Definition geb (a b : float) : bool := b <=? a.

(** The builtin [min(a, b)]: the first argument unless the second is
    strictly smaller; [max(a, b)]: the first unless the second is strictly
    larger. *)
Definition min (a b : float) : float := if b <? a then b else a.
Definition max (a b : float) : float := if gtb b a then b else a.

Definition nan : float := PrimFloat.nan.
Definition inf : float := PrimFloat.infinity.

(** [math.isfinite]. *)
Definition isfinite (x : float) : bool :=
  negb (PrimFloat.is_nan x) && negb (PrimFloat.is_infinity x).

(** An exception: its class name and [str(e)]. *)
Record PyException := mkExc { exc_class : string; exc_str : string }.

(** A computation that returns or raises. *)
Definition Exc (A : Type) : Type := (PyException + A)%type.

Definition ret {A} (a : A) : Exc A := inr a.
Definition raise {A} (e : PyException) : Exc A := inl e.
Definition bind {A B} (c : Exc A) (k : A -> Exc B) : Exc B :=
  match c with
  | inl e => inl e
  | inr a => k a
  end.

(** [try: c  except Exception as e: h e]. *)
Definition try_except {A B} (c : Exc A) (h : PyException -> B) (k : A -> B) : B :=
  match c with
  | inl e => h e
  | inr a => k a
  end.

(** [os.environ] and [os.getenv(key, default)]. *)
Definition Environ : Type := string -> option string.

Definition getenv (env : Environ) (key default : string) : string :=
  match env key with
  | Some v => v
  | None => default
  end.

Definition no_environ : Environ := fun _ => None.

Definition setenv (key value : string) (env : Environ) : Environ :=
  fun k => if String.eqb k key then Some value else env k.

(** A natural number in decimal. *)
Definition nat_text (n : nat) : string := NilEmpty.string_of_uint (Nat.to_uint n).

(** numpy's [IndexError] for the index [i] on an axis of [size] entries. *)
Definition out_of_bounds (i size : nat) : PyException :=
  mkExc "IndexError"
    ("index " ++ nat_text i ++ " is out of bounds for axis 0 with size "
     ++ nat_text size)%string.

(** [m[i][j]] on a numpy matrix, given as the list of its rows: each index
    is checked against its own axis. *)
Definition index2 (m : list (list float)) (i j : nat) : Exc float :=
  match nth_error m i with
  | None => raise (out_of_bounds i (length m))
  | Some row =>
      match nth_error row j with
      | None => raise (out_of_bounds j (length row))
      | Some x => ret x
      end
  end.

End Py.

Notation "a >? b" := (Py.gtb a b) (at level 70, no associativity) : float_scope.
Notation "a >=? b" := (Py.geb a b) (at level 70, no associativity) : float_scope.
Notation "x <- c ;; k" := (Py.bind c (fun x => k))
  (at level 61, c at next level, right associativity).

(** ** A fragment of Python's [float(str)]

    [float] on a plain decimal numeral: an optional sign, digits, and an
    optional point followed by digits.  For numerals of at most fifteen
    significant digits the quotient of two exactly represented integers,
    rounded once, is the nearest binary64 value, which is what [float]
    returns.  Anything else raises [ValueError] here; the service itself is
    stated over an arbitrary [float] function, this one instantiates it. *)

Module Decimal.

Definition digit (c : Ascii.ascii) : option Z :=
  let n := Z.of_nat (Ascii.nat_of_ascii c) in
  if ((48 <=? n) && (n <=? 57))%Z then Some (n - 48)%Z else None.

(** Reads digits, and after a point counts the power of ten to divide by. *)
Fixpoint scan (s : string) (seen_point : bool) (mant scale : Z) (ndigits : nat)
  : option (Z * Z * nat) :=
  match s with
  | EmptyString => Some (mant, scale, ndigits)
  | String c rest =>
      if Ascii.eqb c "."%char then
        if seen_point then None else scan rest true mant scale ndigits
      else
        match digit c with
        | None => None
        | Some d =>
            scan rest seen_point (10 * mant + d)%Z
                 (if seen_point then (10 * scale)%Z else scale) (S ndigits)
        end
  end.

Definition of_Z (z : Z) : float := PrimFloat.of_uint63 (Uint63.of_Z z).

Definition magnitude (s : string) : option float :=
  match scan s false 0%Z 1%Z 0%nat with
  | Some (mant, scale, S n) =>
      if (n <? 15)%nat then Some (of_Z mant / of_Z scale) else None
  | _ => None
  end.

Definition value_error (s : string) : Py.PyException :=
  Py.mkExc "ValueError" ("could not convert string to float: '" ++ s ++ "'")%string.

Definition float_of_string (s : string) : Py.Exc float :=
  match s with
  | String "-"%char rest =>
      match magnitude rest with
      | Some x => Py.ret (- x)
      | None => Py.raise (value_error s)
      end
  | String "+"%char rest =>
      match magnitude rest with
      | Some x => Py.ret x
      | None => Py.raise (value_error s)
      end
  | _ =>
      match magnitude s with
      | Some x => Py.ret x
      | None => Py.raise (value_error s)
      end
  end.

End Decimal.

(** ** [ml_service/signal_classifier.py] *)

Module SignalClassifier.

Import Py.

(** [class SignalRequest(BaseModel)]: [side] is any [str], the indicators any
    [float] (NaN and the infinities included). *)
Record SignalRequest := mkRequest {
  symbol : string;
  side : string;
  rsi : float;
  macd : float;
  macd_signal : float;
  ema_alignment : float;
  atr_percent : float;
  volume_ratio : float;
  cvd : float;
  adx : float;
  price : float
}.

(** [class SignalResponse(BaseModel)]. *)
Record SignalResponse := mkResponse {
  resp_symbol : string;
  resp_side : string;
  probability : float;
  recommended : bool;
  confidence : string
}.

(** [fastapi.HTTPException]. *)
Record HTTPException := mkHTTP { status_code : Z; detail : string }.

(** The global [model]: an object with [predict_proba], which returns a
    matrix of class probabilities or raises. *)
Record Model := mkModel {
  predict_proba : list (list float) -> Exc (list (list float))
}.

(** [load_model]: [path_exists] is [os.path.exists(MODEL_PATH)], [load] what
    [joblib.load(MODEL_PATH)] does. *)
Definition load_model (path_exists : Exc bool) (load : Exc Model) : option Model :=
  try_except
    (ex <- path_exists ;;
     if ex then (m <- load ;; ret (Some m)) else ret None)
    (fun _ => None)
    (fun m => m).

(** [health_check]. *)
Definition health_check (model : option Model) : string * bool :=
  ("healthy", match model with Some _ => true | None => false end).

(** The [features] array of [predict_signal], one row of ten entries. *)
Definition features (request : SignalRequest) : list (list float) :=
  [[ rsi request;
     macd request;
     macd_signal request;
     macd request - macd_signal request;
     ema_alignment request;
     atr_percent request;
     volume_ratio request;
     cvd request;
     adx request;
     if (side request =? "BUY")%string then 1.0 else 0.0 ]].

(** The five scoring steps of [calculate_fallback_score], each taking the
    running [score]. *)
Definition rsi_step (request : SignalRequest) (score : float) : float :=
  if (side request =? "BUY")%string then
    if (40 <=? rsi request) && (rsi request <=? 60) then score + 0.1
    else if rsi request <? 30 then score + 0.05
    else score
  else
    if (40 <=? rsi request) && (rsi request <=? 60) then score + 0.1
    else if rsi request >? 70 then score + 0.05
    else score.

Definition adx_step (request : SignalRequest) (score : float) : float :=
  if adx request >? 25 then score + 0.15
  else if adx request >? 20 then score + 0.08
  else score.

Definition cvd_step (request : SignalRequest) (score : float) : float :=
  if ((side request =? "BUY")%string && (cvd request >? 0))
     || ((side request =? "SELL")%string && (cvd request <? 0))
  then score + 0.1 else score.

Definition volume_step (request : SignalRequest) (score : float) : float :=
  if volume_ratio request >? 1.2 then score + 0.1 else score.

Definition ema_step (request : SignalRequest) (score : float) : float :=
  if ((side request =? "BUY")%string && (ema_alignment request >? 0))
     || ((side request =? "SELL")%string && (ema_alignment request <? 0))
  then score + 0.1 else score.

(** [score] just before the final clamp. *)
Definition fallback_sum (request : SignalRequest) : float :=
  ema_step request
    (volume_step request
       (cvd_step request
          (adx_step request
             (rsi_step request 0.5)))).

Definition calculate_fallback_score (request : SignalRequest) : float :=
  Py.max 0.0 (Py.min 1.0 (fallback_sum request)).

(** The confidence level of [predict_signal]. *)
Definition confidence_of (probability : float) : string :=
  if probability >=? 0.8 then "HIGH"
  else if probability >=? 0.6 then "MEDIUM"
  else "LOW".

Section Service.

(** Python's [float] applied to a string. *)
Variable py_float : string -> Exc float.

(** The body of the [try] block of [predict_signal]. *)
Definition predict_body (model : option Model) (env : Environ)
           (request : SignalRequest) : Exc SignalResponse :=
  let feats := features request in
  probability <-
    match model with
    | Some m =>
        proba <- predict_proba m feats ;;
        index2 proba 0 1
    | None => ret (calculate_fallback_score request)
    end ;;
  min_probability <- py_float (getenv env "MIN_PROBABILITY" "0.6") ;;
  let recommended := probability >=? min_probability in
  let confidence := confidence_of probability in
  ret (mkResponse (symbol request) (side request)
                  probability recommended confidence).

(** [predict_signal]: any exception of the body becomes an
    [HTTPException] with status 500 and the exception's text. *)
Definition predict_signal (model : option Model) (env : Environ)
           (request : SignalRequest) : HTTPException + SignalResponse :=
  try_except (predict_body model env request)
    (fun e => inl (mkHTTP 500 (exc_str e)))
    (fun r => inr r).

End Service.

End SignalClassifier.

(** ** [ml_service/train_model.py] *)

Module TrainModel.

Import Py.

(** *** A pandas DataFrame, as far as the script uses one

    A cell is a float, a string, an integer, a timestamp or [None].  A frame
    keeps its column labels in order and its rows as dictionaries; a label a
    row has no entry for reads as NaN, as after [pd.concat] of frames with
    different columns.  Numeric dtype promotion is not modelled: a cell keeps
    the value it was created with. *)
Inductive Cell :=
| Num (x : float)
| Int (n : Z)
| Str (s : string)
| Time (t : Z)
| PyNone.

Definition Dict : Type := list (string * Cell).
Definition Series : Type := list Cell.

Record DataFrame := mkFrame { columns : list string; rows : list Dict }.

Fixpoint dict_get (d : Dict) (k : string) : option Cell :=
  match d with
  | [] => None
  | (k', v) :: d' => if (k' =? k)%string then Some v else dict_get d' k
  end.

(** [d.get(k, default)]. *)
Definition dict_get_default (d : Dict) (k : string) (default : Cell) : Cell :=
  match dict_get d k with
  | Some v => v
  | None => default
  end.

(** [d[k] = v]: in place when the key is there, at the end otherwise. *)
Fixpoint dict_set (d : Dict) (k : string) (v : Cell) : Dict :=
  match d with
  | [] => [(k, v)]
  | (k', v') :: d' =>
      if (k' =? k)%string then (k, v) :: d' else (k', v') :: dict_set d' k v
  end.

Definition mem (k : string) (l : list string) : bool :=
  existsb (fun k' => (k' =? k)%string) l.

(** Labels of [l2] that [l1] lacks, appended in order. *)
Definition union_labels (l1 l2 : list string) : list string :=
  fold_left (fun acc k => if mem k acc then acc else acc ++ [k]) l2 l1.

(** [pd.DataFrame(records)] for a list of dictionaries. *)
Definition frame_of_records (records : list Dict) : DataFrame :=
  mkFrame (fold_left (fun acc d => union_labels acc (map fst d)) records [])
          records.

(** [pd.concat([df1, df2], ignore_index=True)]. *)
Definition concat (df1 df2 : DataFrame) : DataFrame :=
  mkFrame (union_labels (columns df1) (columns df2)) (rows df1 ++ rows df2).

(** [len(df)]. *)
Definition len (df : DataFrame) : nat := length (rows df).

Definition cell_at (d : Dict) (k : string) : Cell :=
  dict_get_default d k (Num nan).

Definition key_error (k : string) : PyException := mkExc "KeyError" k.

(** [df[k]]. *)
Definition get_column (df : DataFrame) (k : string) : Exc Series :=
  if mem k (columns df) then ret (map (fun d => cell_at d k) (rows df))
  else raise (key_error k).

Fixpoint zip_set (ds : list Dict) (k : string) (vs : Series) : option (list Dict) :=
  match ds, vs with
  | [], [] => Some []
  | d :: ds', v :: vs' =>
      match zip_set ds' k vs' with
      | Some r => Some (dict_set d k v :: r)
      | None => None
      end
  | _, _ => None
  end.

(** [df[k] = values]: a new label goes last. *)
Definition set_column (df : DataFrame) (k : string) (vs : Series) : Exc DataFrame :=
  match zip_set (rows df) k vs with
  | Some rs =>
      ret (mkFrame (if mem k (columns df) then columns df else columns df ++ [k]) rs)
  | None =>
      raise (mkExc "ValueError" "Length of values does not match length of index")
  end.

(** [df[[k1, ..., kn]].copy()]. *)
Definition select (df : DataFrame) (ks : list string) : Exc DataFrame :=
  match filter (fun k => negb (mem k (columns df))) ks with
  | [] => ret (mkFrame ks (map (fun d => map (fun k => (k, cell_at d k)) ks) (rows df)))
  | k :: _ => raise (key_error k)
  end.

(** [X.values]: the cells row by row, in column order. *)
Definition values (df : DataFrame) : list (list Cell) :=
  map (fun d => map (fun k => cell_at d k) (columns df)) (rows df).

Definition type_error : PyException := mkExc "TypeError" "unsupported operand type(s)".

(** An integer operand met by a float one, for integers below 2^63. *)
Definition int_to_float (n : Z) : float :=
  if (n <? 0)%Z then - PrimFloat.of_uint63 (Uint63.of_Z (- n))
  else PrimFloat.of_uint63 (Uint63.of_Z n).

(** [c > 0] on one cell of a column: a missing value ([None], NaN) compares
    false, a string or a timestamp cannot be compared with a number. *)
Definition cell_gt0 (c : Cell) : Exc bool :=
  match c with
  | Num x => ret (x >? 0)
  | Int n => ret (0 <? n)%Z
  | PyNone => ret false
  | Str _ | Time _ => raise type_error
  end.

(** [a - b] on one pair of cells of two columns: numbers are subtracted, a
    pair with a missing value ([None], NaN) gives NaN, any other pair cannot
    be subtracted. *)
Definition cell_sub (a b : Cell) : Exc Cell :=
  match a, b with
  | Num x, Num y => ret (Num (x - y))
  | Num x, Int n => ret (Num (x - int_to_float n))
  | Int m, Num y => ret (Num (int_to_float m - y))
  | Int m, Int n => ret (Int (m - n))
  | PyNone, _ | _, PyNone => ret (Num nan)
  | Num x, _ => if PrimFloat.is_nan x then ret (Num nan) else raise type_error
  | _, Num y => if PrimFloat.is_nan y then ret (Num nan) else raise type_error
  | _, _ => raise type_error
  end.

(** [c == s] for a string [s]. *)
Definition cell_eq_str (c : Cell) (s : string) : bool :=
  match c with
  | Str t => (t =? s)%string
  | _ => false
  end.

Fixpoint map_exc {A B} (f : A -> Exc B) (l : list A) : Exc (list B) :=
  match l with
  | [] => ret []
  | a :: l' => b <- f a ;; bs <- map_exc f l' ;; ret (b :: bs)
  end.

Fixpoint map2_exc {A B C} (f : A -> B -> Exc C) (l1 : list A) (l2 : list B)
  : Exc (list C) :=
  match l1, l2 with
  | a :: l1', b :: l2' => c <- f a b ;; cs <- map2_exc f l1' l2' ;; ret (c :: cs)
  | _, _ => ret []
  end.

Definition bool_to_int (b : bool) : Cell := Int (if b then 1 else 0)%Z.
Definition bool_to_float (b : bool) : Cell := Num (if b then 1.0 else 0.0).

(** *** The InfluxDB client *)

Record FluxRecord := mkFlux { get_time : Z; flux_values : Dict }.

(** What the calls on the client do: building it (and its query API),
    running the query, closing it. *)
Record InfluxDB := mkInflux {
  connect : string -> string -> string -> Exc unit;
  query : string -> Exc (list (list FluxRecord));
  close : Exc unit
}.

(** The module-level configuration, read from the environment as it is after
    [load_dotenv]. *)
Definition INFLUXDB_URL (env : Environ) := getenv env "INFLUXDB_URL" "http://localhost:8086".
Definition INFLUXDB_TOKEN (env : Environ) := getenv env "INFLUXDB_TOKEN" "".
Definition INFLUXDB_ORG (env : Environ) := getenv env "INFLUXDB_ORG" "turkninja".
Definition INFLUXDB_BUCKET (env : Environ) := getenv env "INFLUXDB_BUCKET" "trading_data".

(** The query text, without the quotation marks and line breaks of the
    f-string. *)
Definition flux_query (env : Environ) : string :=
  ("from(bucket: " ++ INFLUXDB_BUCKET env ++ ") |> range(start: -365d) "
   ++ "|> filter(fn: (r) => r._measurement == position_closes) "
   ++ "|> pivot(rowKey:[_time], columnKey: [_field], valueColumn: _value)")%string.

(** The dictionary appended to [records] for one query record. *)
Definition trade_record (record : FluxRecord) : Dict :=
  [ ("timestamp", Time (get_time record));
    ("symbol", dict_get_default (flux_values record) "symbol" PyNone);
    ("side", dict_get_default (flux_values record) "side" PyNone);
    ("pnl", dict_get_default (flux_values record) "pnl" (Int 0));
    ("entry_price", dict_get_default (flux_values record) "entry_price" (Int 0));
    ("exit_price", dict_get_default (flux_values record) "exit_price" (Int 0)) ].

(** *** The synthetic win probability

    The [win_prob] computed in the loop of [generate_synthetic_data]. *)
Definition win_prob (side : string) (rsi adx cvd volume_ratio ema_alignment : float)
  : float :=
  let win_prob := 0.5 in
  let win_prob :=
    if (side =? "BUY")%string then
      if rsi <? 40 then win_prob + 0.1
      else if rsi >? 70 then win_prob - 0.15
      else win_prob
    else
      if rsi >? 60 then win_prob + 0.1
      else if rsi <? 30 then win_prob - 0.15
      else win_prob in
  let win_prob := if adx >? 25 then win_prob + 0.15 else win_prob in
  let win_prob :=
    if ((side =? "BUY")%string && (cvd >? 0)) || ((side =? "SELL")%string && (cvd <? 0))
    then win_prob + 0.1 else win_prob in
  let win_prob := if volume_ratio >? 1.2 then win_prob + 0.05 else win_prob in
  let win_prob :=
    if ((side =? "BUY")%string && (ema_alignment >? 0))
       || ((side =? "SELL")%string && (ema_alignment <? 0))
    then win_prob + 0.1 else win_prob in
  win_prob.

Section Script.

(** numpy's global random state and the draws the script makes from it. *)
Variable RandomState : Type.
Variable seed : Z -> RandomState.
Variable choice : list string -> RandomState -> string * RandomState.
Variable uniform : float -> float -> RandomState -> float * RandomState.
Variable random : RandomState -> float * RandomState.

(** A computation on the random state that returns or raises. *)
Definition Run (A : Type) : Type := RandomState -> Exc A * RandomState.

Definition pure {A} (a : A) : Run A := fun st => (ret a, st).
Definition lift {A} (c : Exc A) : Run A := fun st => (c, st).
Definition draw {A} (f : RandomState -> A * RandomState) : Run A :=
  fun st => let (a, st') := f st in (ret a, st').
Definition andthen {A B} (c : Run A) (k : A -> Run B) : Run B :=
  fun st =>
    match c st with
    | (inl e, st') => (inl e, st')
    | (inr a, st') => k a st'
    end.
(** [try: c  except Exception: h]. *)
Definition try_run {A} (c : Run A) (h : PyException -> Run A) : Run A :=
  fun st =>
    match c st with
    | (inl e, st') => h e st'
    | (inr a, st') => (inr a, st')
    end.

Local Notation "x <~ c ;; k" := (andthen c (fun x => k))
  (at level 61, c at next level, right associativity).

(** One iteration of the loop of [generate_synthetic_data]. *)
Definition synthetic_trade : Run Dict :=
  side <~ draw (choice ["BUY"; "SELL"]) ;;
  rsi <~ draw (uniform 20 80) ;;
  macd <~ draw (uniform (-0.5) 0.5) ;;
  delta <~ draw (uniform (-0.2) 0.2) ;;
  let macd_signal := macd + delta in
  ema_alignment <~ draw (uniform (-2) 2) ;;
  atr_percent <~ draw (uniform 0.5 3.0) ;;
  volume_ratio <~ draw (uniform 0.5 2.0) ;;
  cvd <~ draw (uniform (-1000) 1000) ;;
  adx <~ draw (uniform 10 50) ;;
  price <~ draw (uniform 20000 100000) ;;
  let p := win_prob side rsi adx cvd volume_ratio ema_alignment in
  u <~ draw random ;;
  let win := u <? p in
  pnl <~ draw (if win then uniform 5 50 else uniform (-30) (-5)) ;;
  pure [ ("side", Str side);
         ("rsi", Num rsi);
         ("macd", Num macd);
         ("macd_signal", Num macd_signal);
         ("ema_alignment", Num ema_alignment);
         ("atr_percent", Num atr_percent);
         ("volume_ratio", Num volume_ratio);
         ("cvd", Num cvd);
         ("adx", Num adx);
         ("price", Num price);
         ("pnl", Num pnl);
         ("win", bool_to_int win) ].

Fixpoint synthetic_loop (n : nat) (data : list Dict) : Run (list Dict) :=
  match n with
  | O => pure data
  | S n' => d <~ synthetic_trade ;; synthetic_loop n' (data ++ [d])
  end.

(** [generate_synthetic_data(n_samples)]. *)
Definition generate_synthetic_data (n_samples : Z) : Run DataFrame :=
  fun _ =>
    (data <~ synthetic_loop (Z.to_nat n_samples) [] ;;
     pure (frame_of_records data)) (seed 42).

(** The body of the [try] block of [fetch_trade_data]. *)
Definition fetch_body (env : Environ) (db : InfluxDB) : Run DataFrame :=
  _ <~ lift (connect db (INFLUXDB_URL env) (INFLUXDB_TOKEN env) (INFLUXDB_ORG env)) ;;
  tables <~ lift (query db (flux_query env)) ;;
  let records := map trade_record (List.concat tables) in
  _ <~ lift (close db) ;;
  if (length records <? 50)%nat then
    let df := frame_of_records records in
    synthetic <~ generate_synthetic_data 500 ;;
    pure (concat df synthetic)
  else
    pure (frame_of_records records).

(** [fetch_trade_data]. *)
Definition fetch_trade_data (env : Environ) (db : InfluxDB) : Run DataFrame :=
  if (INFLUXDB_TOKEN env =? "")%string then generate_synthetic_data 500
  else try_run (fetch_body env db) (fun _ => generate_synthetic_data 500).

(** [np.random.uniform(low, high, n)]: [n] draws in a row. *)
Fixpoint uniform_array (low high : float) (n : nat) : Run (list float) :=
  match n with
  | O => pure []
  | S n' =>
      x <~ draw (uniform low high) ;;
      xs <~ uniform_array low high n' ;;
      pure (x :: xs)
  end.

Definition required_features : list string :=
  ["rsi"; "macd"; "macd_signal"; "ema_alignment";
   "atr_percent"; "volume_ratio"; "cvd"; "adx"].

(** The loop of [prepare_features] that fills in absent feature columns. *)
Fixpoint fill_features (fs : list string) (df : DataFrame) : Run DataFrame :=
  match fs with
  | [] => pure df
  | feature :: fs' =>
      if mem feature (columns df) then fill_features fs' df
      else
        xs <~ uniform_array 0 1 (len df) ;;
        df' <~ lift (set_column df feature (map Num xs)) ;;
        fill_features fs' df'
  end.

(** [prepare_features(df)]: the feature matrix [X] and the target [y].  The
    columns it adds to the caller's [df] on the way are not returned. *)
Definition prepare_features (df : DataFrame) : Run (DataFrame * Series) :=
  df <~ (if mem "win" (columns df) then pure df
         else
           pnl <~ lift (get_column df "pnl") ;;
           pos <~ lift (map_exc cell_gt0 pnl) ;;
           lift (set_column df "win" (map bool_to_int pos))) ;;
  df <~ fill_features required_features df ;;
  X <~ lift (select df ["rsi"; "macd"; "macd_signal"; "ema_alignment";
                         "atr_percent"; "volume_ratio"; "cvd"; "adx"]) ;;
  m <~ lift (get_column X "macd") ;;
  s <~ lift (get_column X "macd_signal") ;;
  hist <~ lift (map2_exc cell_sub m s) ;;
  X <~ lift (set_column X "macd_histogram" hist) ;;
  sd <~ lift (get_column df "side") ;;
  X <~ lift (set_column X "side_encoded"
                        (map (fun c => bool_to_float (cell_eq_str c "BUY")) sd)) ;;
  y <~ lift (get_column df "win") ;;
  pure (X, y).

End Script.

End TrainModel.

(** ** Sample inputs *)

Module Samples.

Import Py SignalClassifier.

(** The request with its [side] replaced. *)
Definition with_side (new_side : string) (r : SignalRequest) : SignalRequest :=
  mkRequest (symbol r) new_side (rsi r) (macd r) (macd_signal r)
    (ema_alignment r) (atr_percent r) (volume_ratio r) (cvd r) (adx r) (price r).

(** A confirmed long entry. *)
Definition buy_request (sym : string) : SignalRequest :=
  mkRequest sym "BUY" 50 0.1 0.05 1.0 1.5 1.5 100 30 50000.

(** A side that is neither BUY nor SELL, with selling pressure. *)
Definition long_request : SignalRequest :=
  mkRequest "BTCUSDT" "LONG" 50 0 0 (-1) 1 1.0 (-100) 10 1000.

(** A request whose indicators are not numbers. *)
Definition nan_request : SignalRequest :=
  mkRequest "BTCUSDT" "BUY" nan inf 0 nan 1 nan (- inf) nan 1000.

(** A model whose prediction raises, as on a feature-count mismatch. *)
Definition broken_model : Model :=
  mkModel (fun _ => raise (mkExc "ValueError" "Feature shape mismatch, expected: 12, got 10")).

(** A model that answers with one class only, so that [[0][1]] is out of range. *)
Definition one_class_model : Model :=
  mkModel (fun _ => ret [[1.0]]).

(** A model that always answers 0.75. *)
Definition steady_model : Model :=
  mkModel (fun _ => ret [[0.25; 0.75]]).

End Samples.

(** ** Sample data for the training script *)

Module TrainSamples.

Import Py SignalClassifier TrainModel.

(** The row a signal with a known outcome contributes to the training data,
    with the columns of [generate_synthetic_data]. *)
Definition training_record (r : SignalRequest) (pnl : float) (win : Z) : Dict :=
  [ ("side", Str (side r));
    ("rsi", Num (rsi r));
    ("macd", Num (macd r));
    ("macd_signal", Num (macd_signal r));
    ("ema_alignment", Num (ema_alignment r));
    ("atr_percent", Num (atr_percent r));
    ("volume_ratio", Num (volume_ratio r));
    ("cvd", Num (cvd r));
    ("adx", Num (adx r));
    ("price", Num (price r));
    ("pnl", Num pnl);
    ("win", Int win) ].

(** The serving-time feature array as cells. *)
Definition feature_cells (r : SignalRequest) : list (list Cell) :=
  map (map Num) (features r).

(** The entry of a matrix of cells at a row and a column, when it is a float. *)
Definition float_at (m : list (list Cell)) (i j : nat) : option float :=
  match nth_error m i with
  | Some row => match nth_error row j with
                | Some (Num x) => Some x
                | _ => None
                end
  | None => None
  end.

(** A stand-in for numpy's generator: the state counts the draws, [choice]
    alternates, [uniform] walks through its interval in eighths. *)
Definition counter_seed (n : Z) : nat := 0%nat.
Definition counter_choice (l : list string) (st : nat) : string * nat :=
  (nth (Nat.modulo st (length l)) l "", S st).
Definition counter_random (st : nat) : float * nat :=
  (Decimal.of_Z (Z.of_nat (Nat.modulo st 8)) / 8, S st).
Definition counter_uniform (low high : float) (st : nat) : float * nat :=
  (low + (high - low) * fst (counter_random st), S st).

(** A database that cannot be reached. *)
Definition unreachable_db : InfluxDB :=
  mkInflux (fun _ _ _ => raise (mkExc "ConnectionError" "connection refused"))
           (fun _ => ret [])
           (ret tt).

(** A database holding one closed position. *)
Definition small_db : InfluxDB :=
  mkInflux (fun _ _ _ => ret tt)
           (fun _ => ret [[ mkFlux 1700000000
                              [ ("symbol", Str "BTCUSDT"); ("side", Str "BUY");
                                ("pnl", Num 12.5); ("entry_price", Num 50000);
                                ("exit_price", Num 50500) ] ]])
           (ret tt).

End TrainSamples.

(** ** Further sample inputs *)

Module MoreSamples.

Import Py SignalClassifier.

(** A model whose second class probability is above one. *)
Definition overconfident_model : Model :=
  mkModel (fun _ => ret [[-0.5; 1.5]]).

(** A model that answers with NaN. *)
Definition nan_model : Model :=
  mkModel (fun _ => ret [[nan; nan]]).

(** The confirmed long entry under another symbol, with other MACD, ATR and
    price readings. *)
Definition other_buy_request : SignalRequest :=
  mkRequest "ETHUSDT" "BUY" 50 (-3) 7 1.0 0.2 1.5 100 30 1800.

(** A long entry with RSI in the band, order flow and volume confirming, a
    weak trend and price below the average. *)
Definition three_confirmations : SignalRequest :=
  mkRequest "BTCUSDT" "BUY" 50 0.1 0.05 (-1) 1.5 1.5 100 15 50000.

(** A short entry on an overbought market with a moderate trend and nothing
    else. *)
Definition overbought_sell : SignalRequest :=
  mkRequest "BTCUSDT" "SELL" 75 0 0 1 1 1.0 100 22 50000.

End MoreSamples.

(** ** Shapes of the training data *)

Module Shapes.

Import Py SignalClassifier TrainModel.

(** The keys of a dictionary appended by [generate_synthetic_data]. *)
Definition synthetic_columns : list string :=
  ["side"; "rsi"; "macd"; "macd_signal"; "ema_alignment"; "atr_percent";
   "volume_ratio"; "cvd"; "adx"; "price"; "pnl"; "win"].

(** The keys of a dictionary appended by [fetch_trade_data]. *)
Definition fetched_columns : list string :=
  ["timestamp"; "symbol"; "side"; "pnl"; "entry_price"; "exit_price"].

(** The columns of the feature matrix [X] of [prepare_features]. *)
Definition training_columns : list string :=
  ["rsi"; "macd"; "macd_signal"; "ema_alignment"; "atr_percent";
   "volume_ratio"; "cvd"; "adx"; "macd_histogram"; "side_encoded"].

(** A trade with its outcome: the signal, the profit and the label. *)
Definition Trade : Type := (SignalRequest * float * Z)%type.

Definition trade_row (t : Trade) : Dict :=
  let '(r, pnl, win) := t in TrainSamples.training_record r pnl win.

(** The row of [X] that [prepare_features] derives from a trade. *)
Definition training_values (t : Trade) : list Cell :=
  let '(r, _, _) := t in
  [ Num (rsi r); Num (macd r); Num (macd_signal r); Num (ema_alignment r);
    Num (atr_percent r); Num (volume_ratio r); Num (cvd r); Num (adx r);
    Num (macd r - macd_signal r);
    Num (if (side r =? "BUY")%string then 1.0 else 0.0) ].

Definition trade_label (t : Trade) : Cell := let '(_, _, win) := t in Int win.

(** The label of a trade is 0 or 1. *)
Definition binary_label (t : Trade) : Prop :=
  let '(_, _, win) := t in win = 0%Z \/ win = 1%Z.

(** The label stored with a trade is the one its profit gives. *)
Definition label_matches_profit (t : Trade) : Prop :=
  let '(_, pnl, win) := t in win = if (pnl >? 0)%float then 1%Z else 0%Z.

End Shapes.

(** ** Sample frames *)

Module FrameSamples.

Import Py SignalClassifier TrainModel.

(** One complete trade, as a synthetic row. *)
Definition complete_frame : DataFrame :=
  frame_of_records
    [TrainSamples.training_record (Samples.buy_request "BTCUSDT") 12.5 1].

(** Two closed positions as [fetch_trade_data] records them: a winning long
    and a losing short. *)
Definition fetched_frame : DataFrame :=
  frame_of_records
    (map trade_record
       [ mkFlux 1700000000
           [ ("symbol", Str "BTCUSDT"); ("side", Str "BUY"); ("pnl", Num 12.5);
             ("entry_price", Num 50000); ("exit_price", Num 50500) ];
         mkFlux 1700003600
           [ ("symbol", Str "ETHUSDT"); ("side", Str "SELL"); ("pnl", Num (-4));
             ("entry_price", Num 1800); ("exit_price", Num 1810) ] ]).

(** Three closed positions whose pnl is missing, a profit and a whole-number
    loss. *)
Definition null_pnl_frame : DataFrame :=
  frame_of_records
    (map trade_record
       [ mkFlux 1700000000
           [ ("symbol", Str "BTCUSDT"); ("side", Str "BUY"); ("pnl", PyNone) ];
         mkFlux 1700003600
           [ ("symbol", Str "ETHUSDT"); ("side", Str "SELL"); ("pnl", Num 12.5) ];
         mkFlux 1700007200
           [ ("symbol", Str "SOLUSDT"); ("side", Str "BUY"); ("pnl", Int (-3)) ] ]).

(** A frame with neither outcome column. *)
Definition bare_frame : DataFrame :=
  frame_of_records [[ ("symbol", Str "BTCUSDT"); ("side", Str "BUY") ]].

End FrameSamples.

(** ** [analyze_logs.py] *)

Module AnalyzeLogs.

Import Py.

(** [needle in hay] on strings. *)
Fixpoint contains (needle hay : string) : bool :=
  if String.prefix needle hay then true
  else match hay with
       | EmptyString => false
       | String _ rest => contains needle rest
       end.

(** The local variables of [analyze_signals]. *)
Record Tally := mkTally {
  current_config : string;
  signal_count : Z;
  max_signals : Z;
  best_config : string
}.

Definition start : Tally := mkTally "" 0 (-1) "".

(** [if current_config and signal_count > max_signals: ...], the check made
    at every config line and once more after the loop. *)
Definition keep_best (t : Tally) : Tally :=
  if negb (current_config t =? "")%string && (signal_count t >? max_signals t)%Z
  then mkTally (current_config t) (signal_count t) (signal_count t) (current_config t)
  else t.

Section Analyze.

(** [str.strip]. *)
Variable strip : string -> string.

(** The body of the loop over the lines of the file. *)
Definition read_line (t : Tally) (line : string) : Tally :=
  if contains "Strategy Config Loaded" line then
    let t := keep_best t in
    mkTally (strip line) 0 (max_signals t) (best_config t)
  else if contains "SIGNAL" line then
    mkTally (current_config t) (signal_count t + 1) (max_signals t) (best_config t)
  else t.

(** The two values [analyze_signals] prints, for the lines of the file. *)
Definition analyze_lines (lines : list string) : Z * string :=
  let t := keep_best (fold_left read_line lines start) in
  (max_signals t, best_config t).

(** [analyze_signals]: [file] is what opening and reading
    [config_signals.txt] gives, the lines or the exception raised. *)
Definition analyze_signals (file : Exc (list string)) : Exc (Z * string) :=
  lines <- file ;; ret (analyze_lines lines).

End Analyze.

(** A config line, and a line counted as a signal. *)
Definition is_config (line : string) : bool := contains "Strategy Config Loaded" line.
Definition is_signal (line : string) : bool :=
  negb (is_config line) && contains "SIGNAL" line.

(** The number of lines counted as signals. *)
Definition count_signals (lines : list string) : Z :=
  Z.of_nat (length (filter is_signal lines)).

(** A stand-in for [str.strip] on plain text: spaces, tabs and line ends are
    dropped at both ends. *)
Definition is_space (c : Ascii.ascii) : bool :=
  let n := Ascii.nat_of_ascii c in
  ((9 <=? n) && (n <=? 13) || (n =? 32))%nat.

Fixpoint lstrip (s : string) : string :=
  match s with
  | EmptyString => EmptyString
  | String c rest => if is_space c then lstrip rest else s
  end.

Fixpoint rstrip (s : string) : string :=
  match s with
  | EmptyString => EmptyString
  | String c rest =>
      let rest' := rstrip rest in
      if is_space c && (rest' =? "")%string then EmptyString else String c rest'
  end.

Definition plain_strip (s : string) : string := rstrip (lstrip s).

(** A log with two configs: one signal before any config, two under the
    first config, two under the second. *)
Definition sample_log : list string :=
  [ "SIGNAL before any config";
    "Strategy Config Loaded: fast";
    "SIGNAL BUY BTCUSDT";
    "heartbeat";
    "SIGNAL SELL ETHUSDT";
    "  Strategy Config Loaded: slow  ";
    "SIGNAL BUY BTCUSDT";
    "SIGNAL BUY ETHUSDT" ].

End AnalyzeLogs.

(** * Properties *)

(** ** The order on binary64 values

    The comparisons of primitive floats are specified by [SFcompare] on their
    decoded form; these are the facts about it the banding argument needs. *)

Section FloatOrder.

Lemma SFcompare_antisym (x y : spec_float) (c : comparison) :
  SFcompare x y = Some c -> SFcompare y x = Some (CompOpp c).
Proof.
  destruct x as [sx|sx| |sx mx ex], y as [sy|sy| |sy my ey]; simpl;
    try discriminate;
    try (destruct sx); try (destruct sy); simpl;
    intros H; inversion H; subst; clear H; try reflexivity;
    change (Pos.compare_cont Eq) with Pos.compare;
    rewrite (Z.compare_antisym ex ey), (Pos.compare_antisym mx my);
    destruct (ex ?= ey)%Z; simpl; try reflexivity;
    destruct (mx ?= my)%positive; reflexivity.
Qed.

Lemma SFcompare_defined (x y : spec_float) :
  x <> S754_nan -> y <> S754_nan -> exists c, SFcompare x y = Some c.
Proof.
  destruct x as [sx|sx| |sx mx ex], y as [sy|sy| |sy my ey]; simpl;
    intros Hx Hy; try congruence; eexists; reflexivity.
Qed.

Lemma SFcompare_lt_trans (x y z : spec_float) (c : comparison) :
  SFcompare x y = Some Lt -> SFcompare y z = Some c -> c <> Gt ->
  SFcompare x z = Some Lt.
Proof.
  destruct x as [sx|sx| |sx mx ex], y as [sy|sy| |sy my ey],
           z as [sz|sz| |sz mz ez]; simpl;
    try discriminate;
    try (destruct sx); try (destruct sy); try (destruct sz); simpl;
    try discriminate; try reflexivity;
    change (Pos.compare_cont Eq) with Pos.compare;
    intros H1 H2 Hc; try congruence;
    inversion H1 as [H1']; inversion H2 as [H2']; clear H1 H2; f_equal;
    repeat match goal with
      | |- context [(?a ?= ?b)%Z] => destruct (Z.compare_spec a b)
      | H : context [(?a ?= ?b)%Z] |- _ => destruct (Z.compare_spec a b)
      | |- context [(?a ?= ?b)%positive] => destruct (Pos.compare_spec a b)
      | H : context [(?a ?= ?b)%positive] |- _ => destruct (Pos.compare_spec a b)
      end;
    subst; simpl in *; try congruence; try lia.
Qed.

Lemma not_nan_decoded (x : float) :
  PrimFloat.is_nan x = false -> Prim2SF x <> S754_nan.
Proof.
  unfold PrimFloat.is_nan. rewrite FloatAxioms.eqb_spec. intros H E.
  rewrite E in H. discriminate H.
Qed.

(** Strictly below excludes at or above. *)
Lemma ltb_not_geb (x y : float) : (x <? y) = true -> (x >=? y) = false.
Proof.
  unfold Py.geb. rewrite ltb_spec, leb_spec. unfold SFltb, SFleb.
  destruct (SFcompare (Prim2SF x) (Prim2SF y)) as [[ | | ]|] eqn:E;
    try discriminate.
  intros _. rewrite (SFcompare_antisym _ _ _ E). reflexivity.
Qed.

(** On numbers, not at or above means strictly below. *)
Lemma not_geb_ltb (x y : float) :
  PrimFloat.is_nan x = false -> PrimFloat.is_nan y = false ->
  (x >=? y) = false -> (x <? y) = true.
Proof.
  intros Hx Hy. unfold Py.geb. rewrite ltb_spec, leb_spec. unfold SFltb, SFleb.
  destruct (SFcompare_defined _ _ (not_nan_decoded _ Hy) (not_nan_decoded _ Hx))
    as [c E].
  rewrite E, (SFcompare_antisym _ _ _ E).
  destruct c; simpl; congruence.
Qed.

(** Below [y], and [y] at most [z]: not at or above [z]. *)
Lemma ltb_leb_not_geb (x y z : float) :
  (x <? y) = true -> (y <=? z) = true -> (x >=? z) = false.
Proof.
  intros Hxy Hyz. apply ltb_not_geb. revert Hxy Hyz.
  rewrite !ltb_spec, leb_spec. unfold SFltb, SFleb.
  destruct (SFcompare (Prim2SF x) (Prim2SF y)) as [[ | | ]|] eqn:E1;
    try discriminate.
  destruct (SFcompare (Prim2SF y) (Prim2SF z)) as [[ | | ]|] eqn:E2;
    try discriminate; intros _ _;
    rewrite (SFcompare_lt_trans _ _ _ _ E1 E2); congruence.
Qed.

End FloatOrder.

(** ** The online service *)

Import Py SignalClassifier.

(** Splits on every condition the goal branches on, innermost first. *)
Ltac split_branches :=
  repeat match goal with
    | |- context [if ?c then _ else _] =>
        lazymatch c with
        | context [if _ then _ else _] => fail
        | _ => destruct c
        end
    end.

Ltac unfold_steps :=
  unfold calculate_fallback_score, fallback_sum,
    ema_step, volume_step, cvd_step, adx_step, rsi_step.

(** A response names the band of its own probability. *)
Lemma predict_signal_response py_float model env request resp :
  predict_signal py_float model env request = inr resp ->
  exists min_probability,
    py_float (getenv env "MIN_PROBABILITY" "0.6") = inr min_probability /\
    resp_symbol resp = symbol request /\
    resp_side resp = side request /\
    recommended resp = (probability resp >=? min_probability) /\
    confidence resp = confidence_of (probability resp).
Proof.
  unfold predict_signal, predict_body, try_except, bind, ret.
  destruct model as [m|].
  - destruct (predict_proba m (features request)) as [e|proba];
      [discriminate|].
    destruct (index2 proba 0 1) as [e|p]; [discriminate|].
    destruct (py_float _) as [e|thr]; [discriminate|].
    intros H; inversion H; subst; clear H; simpl. eauto 6.
  - destruct (py_float _) as [e|thr]; [discriminate|].
    intros H; inversion H; subst; clear H; simpl. eauto 6.
Qed.

(** Without a model the probability is the rule-based score. *)
Lemma predict_signal_fallback py_float env request thr :
  py_float (getenv env "MIN_PROBABILITY" "0.6") = inr thr ->
  predict_signal py_float None env request =
    inr (mkResponse (symbol request) (side request)
           (calculate_fallback_score request)
           (calculate_fallback_score request >=? thr)
           (confidence_of (calculate_fallback_score request))).
Proof.
  intros H. unfold predict_signal, predict_body, try_except, bind, ret.
  rewrite H. reflexivity.
Qed.

(** The rule-based score is between 0.5 and 1.0. *)
Lemma calculate_fallback_score_bounds (request : SignalRequest) :
  (0.5 <=? calculate_fallback_score request) = true /\
  (calculate_fallback_score request <=? 1.0) = true.
Proof.
  unfold_steps. split_branches; vm_compute; split; reflexivity.
Qed.

(** C4: whatever the request, the rule-based score lies in [0.5, 1.0]: the
    running score starts at 0.5 and no step lowers it, the sum before the
    clamp is at most 1.05, and the clamp returns it capped at 1.0.  The sum
    1.05 is reached, and clamped to 1.0; the base 0.5 is reached too. *)
Theorem calculate_fallback_score_range :
  (forall request : SignalRequest,
     let s1 := rsi_step request 0.5 in
     let s2 := adx_step request s1 in
     let s3 := cvd_step request s2 in
     let s4 := volume_step request s3 in
     let s5 := ema_step request s4 in
     (0.5 <=? s1) = true /\ (s1 <=? s2) = true /\ (s2 <=? s3) = true /\
     (s3 <=? s4) = true /\ (s4 <=? s5) = true /\
     s5 = fallback_sum request /\ (s5 <=? 1.05) = true /\
     calculate_fallback_score request = Py.min 1.0 s5 /\
     (0.5 <=? calculate_fallback_score request) = true /\
     (calculate_fallback_score request <=? 1.0) = true) /\
  (fallback_sum (Samples.buy_request "BTCUSDT") = 1.05 /\
   calculate_fallback_score (Samples.buy_request "BTCUSDT") = 1.0) /\
  (fallback_sum Samples.nan_request = 0.5 /\
   calculate_fallback_score Samples.nan_request = 0.5).
Proof.
  split.
  - intros request. unfold_steps.
    split_branches; vm_compute; repeat split; reflexivity.
  - repeat split; vm_compute; reflexivity.
Qed.

(** The bands of [confidence_of] on numbers. *)
Lemma confidence_of_bands (p : float) :
  PrimFloat.is_nan p = false ->
  (confidence_of p = "HIGH" <-> (p >=? 0.8) = true) /\
  (confidence_of p = "MEDIUM" <-> (p >=? 0.6) = true /\ (p <? 0.8) = true) /\
  (confidence_of p = "LOW" <-> (p <? 0.6) = true).
Proof.
  intros Hp. unfold confidence_of.
  assert (N8 : PrimFloat.is_nan 0.8 = false) by reflexivity.
  assert (N6 : PrimFloat.is_nan 0.6 = false) by reflexivity.
  assert (L68 : (0.6 <=? 0.8) = true) by reflexivity.
  assert (A8 : (p <? 0.8) = true -> (p >=? 0.8) = false)
    by apply ltb_not_geb.
  assert (A6 : (p <? 0.6) = true -> (p >=? 0.6) = false)
    by apply ltb_not_geb.
  assert (A68 : (p <? 0.6) = true -> (p >=? 0.8) = false)
    by (intros H; exact (ltb_leb_not_geb p 0.6 0.8 H L68)).
  assert (T8 : (p >=? 0.8) = false -> (p <? 0.8) = true)
    by (apply not_geb_ltb; assumption).
  assert (T6 : (p >=? 0.6) = false -> (p <? 0.6) = true)
    by (apply not_geb_ltb; assumption).
  destruct (p >=? 0.8) eqn:H8; destruct (p >=? 0.6) eqn:H6;
    destruct (p <? 0.8) eqn:L8; destruct (p <? 0.6) eqn:L6;
    try (specialize (A8 eq_refl); discriminate A8);
    try (specialize (A6 eq_refl); discriminate A6);
    try (specialize (A68 eq_refl); discriminate A68);
    try (specialize (T8 eq_refl); discriminate T8);
    try (specialize (T6 eq_refl); discriminate T6);
    (split; [|split]); split; intros H;
    try reflexivity; try discriminate H;
    try (split; reflexivity);
    try (destruct H as [H1 H2]; discriminate).
Qed.

(** C5: in every response whose probability is a number, the confidence is
    HIGH exactly when the probability is at least 0.8, MEDIUM exactly when it
    is at least 0.6 and below 0.8, LOW exactly when it is below 0.6; 0.8
    itself is HIGH and 0.6 itself is MEDIUM. *)
Theorem confidence_bands py_float model env request resp :
  predict_signal py_float model env request = inr resp ->
  PrimFloat.is_nan (probability resp) = false ->
  (confidence resp = "HIGH" <-> (probability resp >=? 0.8) = true) /\
  (confidence resp = "MEDIUM" <->
     (probability resp >=? 0.6) = true /\ (probability resp <? 0.8) = true) /\
  (confidence resp = "LOW" <-> (probability resp <? 0.6) = true) /\
  confidence_of 0.8 = "HIGH" /\ confidence_of 0.6 = "MEDIUM".
Proof.
  intros H Hp.
  destruct (predict_signal_response _ _ _ _ _ H) as (thr & _ & _ & _ & _ & Hc).
  rewrite Hc.
  destruct (confidence_of_bands _ Hp) as (B1 & B2 & B3).
  split; [exact B1|]. split; [exact B2|]. split; [exact B3|].
  split; reflexivity.
Qed.

Lemma confidence_bands_witness :
  let resp := mkResponse "ETHUSDT" "BUY" 0.75 true "MEDIUM" in
  predict_signal Decimal.float_of_string (Some Samples.steady_model) no_environ
    (Samples.buy_request "ETHUSDT") = inr resp /\
  ((confidence resp = "HIGH" <-> (probability resp >=? 0.8) = true) /\
   (confidence resp = "MEDIUM" <->
      (probability resp >=? 0.6) = true /\ (probability resp <? 0.8) = true) /\
   (confidence resp = "LOW" <-> (probability resp <? 0.6) = true) /\
   confidence_of 0.8 = "HIGH" /\ confidence_of 0.6 = "MEDIUM").
Proof.
  split.
  - vm_compute. reflexivity.
  - apply (confidence_bands Decimal.float_of_string (Some Samples.steady_model)
             no_environ (Samples.buy_request "ETHUSDT")).
    + vm_compute. reflexivity.
    + vm_compute. reflexivity.
Defined.

(** C6: a response is recommended exactly when its probability is at least
    the threshold that [float] reads from MIN_PROBABILITY, which is read from
    the text 0.6 when the variable is not set. *)
Theorem recommended_iff_threshold py_float model env request resp thr :
  py_float (getenv env "MIN_PROBABILITY" "0.6") = inr thr ->
  predict_signal py_float model env request = inr resp ->
  (recommended resp = true <-> (probability resp >=? thr) = true) /\
  (env "MIN_PROBABILITY" = None -> py_float "0.6" = inr thr).
Proof.
  intros Ht H.
  destruct (predict_signal_response _ _ _ _ _ H) as (thr' & Ht' & _ & _ & Hr & _).
  rewrite Ht in Ht'. inversion Ht'; subst thr'. split.
  - rewrite Hr. tauto.
  - intros Hn. unfold getenv in Ht. rewrite Hn in Ht. exact Ht.
Qed.

Lemma recommended_iff_threshold_witness :
  let env := setenv "MIN_PROBABILITY" "0.8" no_environ in
  let resp := mkResponse "ETHUSDT" "BUY" 0.75 false "MEDIUM" in
  Decimal.float_of_string (getenv env "MIN_PROBABILITY" "0.6") = inr 0.8 /\
  predict_signal Decimal.float_of_string (Some Samples.steady_model) env
    (Samples.buy_request "ETHUSDT") = inr resp /\
  (recommended resp = true <-> (probability resp >=? 0.8) = true) /\
  (env "MIN_PROBABILITY" = None -> Decimal.float_of_string "0.6" = inr 0.8).
Proof.
  split; [vm_compute; reflexivity|].
  split; [vm_compute; reflexivity|].
  apply (recommended_iff_threshold Decimal.float_of_string
           (Some Samples.steady_model)
           (setenv "MIN_PROBABILITY" "0.8" no_environ)
           (Samples.buy_request "ETHUSDT")).
  - vm_compute. reflexivity.
  - vm_compute. reflexivity.
Defined.

(** C7: for the confirmed long entry, scored without a model under the
    threshold 0.6, each of the five rules adds its bonus (0.1, 0.15, 0.1, 0.1,
    0.1), the sum 1.05 is clamped to the probability 1.0, the confidence is
    HIGH and the signal is recommended. *)
Theorem buy_request_scored py_float env sym :
  py_float (getenv env "MIN_PROBABILITY" "0.6") = inr 0.6 ->
  let request := Samples.buy_request sym in
  (forall s, rsi_step request s = s + 0.1) /\
  (forall s, adx_step request s = s + 0.15) /\
  (forall s, cvd_step request s = s + 0.1) /\
  (forall s, volume_step request s = s + 0.1) /\
  (forall s, ema_step request s = s + 0.1) /\
  fallback_sum request = 0.5 + 0.1 + 0.15 + 0.1 + 0.1 + 0.1 /\
  fallback_sum request = 1.05 /\
  calculate_fallback_score request = 1.0 /\
  predict_signal py_float None env request =
    inr (mkResponse sym "BUY" 1.0 true "HIGH").
Proof.
  intros Ht request.
  repeat split; try (intros s; vm_compute; reflexivity);
    try (vm_compute; reflexivity).
  rewrite (predict_signal_fallback _ _ _ _ Ht). reflexivity.
Qed.

Lemma buy_request_scored_witness :
  Decimal.float_of_string (getenv no_environ "MIN_PROBABILITY" "0.6") = inr 0.6 /\
  predict_signal Decimal.float_of_string None no_environ
    (Samples.buy_request "BTCUSDT") =
    inr (mkResponse "BTCUSDT" "BUY" 1.0 true "HIGH").
Proof.
  split; [vm_compute; reflexivity|].
  apply (buy_request_scored Decimal.float_of_string no_environ "BTCUSDT").
  vm_compute. reflexivity.
Defined.

(** C2 does not hold as stated: a loaded model whose prediction raises is not
    replaced by the rule-based scorer, the request fails; the same request
    without a model is scored. *)
Lemma broken_model_fails :
  predict_proba Samples.broken_model (features (Samples.buy_request "BTCUSDT")) =
    inl (mkExc "ValueError" "Feature shape mismatch, expected: 12, got 10") /\
  predict_signal Decimal.float_of_string (Some Samples.broken_model) no_environ
    (Samples.buy_request "BTCUSDT") =
    inl (mkHTTP 500 "Feature shape mismatch, expected: 12, got 10") /\
  predict_signal Decimal.float_of_string None no_environ
    (Samples.buy_request "BTCUSDT") =
    inr (mkResponse "BTCUSDT" "BUY" 1.0 true "HIGH").
Proof. repeat split; vm_compute; reflexivity. Qed.

(** C2, as the code has it: when the loaded model's prediction raises, or its
    answer has no entry [[0][1]], [predict_signal] fails with an HTTP error of
    status 500 that carries the exception's text; no response is produced and
    the rule-based scorer is not consulted. *)
Theorem model_failure_is_http_500 py_float m env request e :
  predict_proba m (features request) = inl e \/
  (exists proba, predict_proba m (features request) = inr proba /\
                 index2 proba 0 1 = inl e) ->
  predict_signal py_float (Some m) env request = inl (mkHTTP 500 (exc_str e)).
Proof.
  unfold predict_signal, predict_body, try_except, bind.
  intros [H|(proba & H & Hi)]; rewrite H; [reflexivity|].
  rewrite Hi. reflexivity.
Qed.

Lemma model_failure_is_http_500_witness :
  predict_signal Decimal.float_of_string (Some Samples.one_class_model) no_environ
    (Samples.buy_request "BTCUSDT") =
    inl (mkHTTP 500 "index 1 is out of bounds for axis 0 with size 1").
Proof.
  apply (model_failure_is_http_500 Decimal.float_of_string Samples.one_class_model
           no_environ (Samples.buy_request "BTCUSDT")
           (out_of_bounds 1 1)).
  right. exists [[1.0]]. split; reflexivity.
Defined.

(** C3 does not hold as stated: a side that is neither BUY nor SELL, and
    indicators that are NaN or infinite, are scored like any other request. *)
Lemma malformed_requests_are_scored :
  side Samples.long_request = "LONG" /\
  predict_signal Decimal.float_of_string None no_environ Samples.long_request =
    inr (mkResponse "BTCUSDT" "LONG" 0.6 true "MEDIUM") /\
  isfinite (rsi Samples.nan_request) = false /\
  isfinite (macd Samples.nan_request) = false /\
  predict_signal Decimal.float_of_string None no_environ Samples.nan_request =
    inr (mkResponse "BTCUSDT" "BUY" 0.5 false "LOW").
Proof. repeat split; vm_compute; reflexivity. Qed.

(** C3, as the code has it: [predict_signal] checks neither the side nor the
    finiteness of the indicators.  Without a model, and with a threshold that
    [float] can read, every request is answered with a complete response that
    repeats its side and carries the rule-based score. *)
Theorem no_request_is_rejected py_float env request thr :
  py_float (getenv env "MIN_PROBABILITY" "0.6") = inr thr ->
  exists resp,
    predict_signal py_float None env request = inr resp /\
    resp_symbol resp = symbol request /\
    resp_side resp = side request /\
    probability resp = calculate_fallback_score request /\
    (0.5 <=? probability resp) = true /\ (probability resp <=? 1.0) = true.
Proof.
  intros Ht. eexists. split.
  - apply (predict_signal_fallback _ _ _ _ Ht).
  - destruct (calculate_fallback_score_bounds request) as [Hlo Hhi].
    simpl. repeat split; assumption.
Qed.

Lemma no_request_is_rejected_witness :
  exists resp,
    predict_signal Decimal.float_of_string None no_environ Samples.long_request =
      inr resp /\
    resp_symbol resp = "BTCUSDT" /\
    resp_side resp = "LONG" /\
    probability resp = calculate_fallback_score Samples.long_request /\
    (0.5 <=? probability resp) = true /\ (probability resp <=? 1.0) = true.
Proof.
  apply (no_request_is_rejected Decimal.float_of_string no_environ
           Samples.long_request 0.6).
  vm_compute. reflexivity.
Defined.

(** C9 does not hold as stated: with selling pressure, LONG earns neither the
    order-flow nor the trend bonus that SELL earns, and scores lower. *)
Lemma long_is_not_scored_as_sell :
  side Samples.long_request <> "BUY" /\
  cvd_step Samples.long_request 0.6 = 0.6 /\
  cvd_step (Samples.with_side "SELL" Samples.long_request) 0.6 = 0.6 + 0.1 /\
  ema_step Samples.long_request 0.6 = 0.6 /\
  ema_step (Samples.with_side "SELL" Samples.long_request) 0.6 = 0.6 + 0.1 /\
  calculate_fallback_score Samples.long_request = 0.6 /\
  calculate_fallback_score (Samples.with_side "SELL" Samples.long_request) =
    0.6 + 0.1 + 0.1 /\
  (calculate_fallback_score Samples.long_request <?
     calculate_fallback_score (Samples.with_side "SELL" Samples.long_request)) = true.
Proof.
  split; [discriminate|]. repeat split; vm_compute; reflexivity.
Qed.

(** C9, as the code has it: when the side is anything but BUY, the last
    feature is 0.0 and the RSI rule takes its SELL branch; the order-flow and
    trend rules give SELL its bonus on a negative value, and give a side that
    is neither BUY nor SELL no bonus at all. *)
Theorem non_buy_side_scoring (request : SignalRequest) :
  side request <> "BUY" ->
  features request =
    [[ rsi request; macd request; macd_signal request;
       macd request - macd_signal request; ema_alignment request;
       atr_percent request; volume_ratio request; cvd request; adx request;
       0.0 ]] /\
  (forall s, rsi_step request s =
             if (40 <=? rsi request) && (rsi request <=? 60) then s + 0.1
             else if rsi request >? 70 then s + 0.05
             else s) /\
  (side request = "SELL" ->
   forall s,
     cvd_step request s = (if cvd request <? 0 then s + 0.1 else s) /\
     ema_step request s = (if ema_alignment request <? 0 then s + 0.1 else s)) /\
  (side request <> "SELL" ->
   forall s, cvd_step request s = s /\ ema_step request s = s).
Proof.
  intros Hb. apply String.eqb_neq in Hb.
  unfold features, rsi_step, cvd_step, ema_step. rewrite Hb. simpl.
  repeat split.
  - rewrite H. simpl. reflexivity.
  - rewrite H. simpl. reflexivity.
  - apply String.eqb_neq in H. rewrite H. reflexivity.
  - apply String.eqb_neq in H. rewrite H. reflexivity.
Qed.

Lemma non_buy_side_scoring_witness :
  features Samples.long_request = [[ 50; 0; 0; 0; -1; 1; 1.0; -100; 10; 0.0 ]] /\
  (forall s, cvd_step Samples.long_request s = s /\
             ema_step Samples.long_request s = s).
Proof.
  assert (Hb : side Samples.long_request <> "BUY") by discriminate.
  assert (Hs : side Samples.long_request <> "SELL") by discriminate.
  destruct (non_buy_side_scoring Samples.long_request Hb) as (Hf & _ & _ & Hn).
  split.
  - exact Hf.
  - exact (Hn Hs).
Defined.

(** ** The training script *)

Import TrainModel.

(** C10: the win probability of a synthetic trade lies in [0.35, 1.0].  The
    RSI rule alone can take 0.15 off the base 0.5, which gives the minimum
    0.35, below the base; the bonuses 0.1, 0.15, 0.1, 0.05 and 0.1 together
    give exactly 1.0. *)
Theorem win_prob_range :
  (forall side rsi adx cvd volume_ratio ema_alignment,
     (0.35 <=? win_prob side rsi adx cvd volume_ratio ema_alignment) = true /\
     (win_prob side rsi adx cvd volume_ratio ema_alignment <=? 1.0) = true) /\
  win_prob "BUY" 75 20 (-500) 1.0 (-1) = 0.5 - 0.15 /\
  win_prob "BUY" 75 20 (-500) 1.0 (-1) = 0.35 /\
  win_prob "SELL" 25 20 500 1.0 1 = 0.35 /\
  (win_prob "BUY" 75 20 (-500) 1.0 (-1) <? 0.5) = true /\
  win_prob "BUY" 30 40 500 1.5 1 = 0.5 + 0.1 + 0.15 + 0.1 + 0.05 + 0.1 /\
  win_prob "BUY" 30 40 500 1.5 1 = 1.0 /\
  win_prob "SELL" 70 40 (-500) 1.5 (-1) = 1.0.
Proof.
  split.
  - intros side rsi adx cvd volume_ratio ema_alignment.
    unfold win_prob. split_branches; vm_compute; split; reflexivity.
  - repeat split; vm_compute; reflexivity.
Qed.

Section ScriptFacts.

Variable RandomState : Type.
Variable seed : Z -> RandomState.
Variable choice : list string -> RandomState -> string * RandomState.
Variable uniform : float -> float -> RandomState -> float * RandomState.
Variable random : RandomState -> float * RandomState.

Local Abbreviation synthetic_trade := (synthetic_trade RandomState choice uniform random).
Local Abbreviation synthetic_loop := (synthetic_loop RandomState choice uniform random).
Local Abbreviation generate_synthetic_data :=
  (generate_synthetic_data RandomState seed choice uniform random).
Local Abbreviation fetch_body := (fetch_body RandomState seed choice uniform random).
Local Abbreviation fetch_trade_data :=
  (fetch_trade_data RandomState seed choice uniform random).

(** Takes the next draw apart. *)
Ltac next_draw :=
  match goal with
  | |- context [choice ?l ?st] => destruct (choice l st)
  | |- context [uniform ?a ?b ?st] => destruct (uniform a b st)
  | |- context [random ?st] => destruct (random st)
  end.

(** One synthetic trade is always produced. *)
Lemma synthetic_trade_returns (st : RandomState) :
  exists d st', synthetic_trade st = (inr d, st').
Proof.
  unfold TrainModel.synthetic_trade, andthen, draw, pure, ret.
  repeat (next_draw; cbv beta iota).
  match goal with
  | |- context [if ?c then _ else _] => destruct c
  end; next_draw; eauto.
Qed.

(** The label of a synthetic trade is drawn against the win probability of
    the trade's own side and indicators. *)
Lemma synthetic_trade_label (st : RandomState) :
  exists side rsi macd macd_signal ema_alignment atr_percent volume_ratio
         cvd adx price pnl u st',
    synthetic_trade st =
      (inr [ ("side", Str side); ("rsi", Num rsi); ("macd", Num macd);
             ("macd_signal", Num macd_signal);
             ("ema_alignment", Num ema_alignment);
             ("atr_percent", Num atr_percent);
             ("volume_ratio", Num volume_ratio); ("cvd", Num cvd);
             ("adx", Num adx); ("price", Num price); ("pnl", Num pnl);
             ("win", bool_to_int
                       (u <? win_prob side rsi adx cvd volume_ratio ema_alignment)) ],
       st').
Proof.
  unfold TrainModel.synthetic_trade, andthen, draw, pure, ret.
  repeat (next_draw; cbv beta iota).
  match goal with
  | |- context [if ?c then _ else _] => destruct c eqn:Hwin
  end; next_draw; repeat eexists; rewrite Hwin; reflexivity.
Qed.

Lemma synthetic_loop_returns (n : nat) :
  forall data st, exists data' st', synthetic_loop n data st = (inr data', st').
Proof.
  induction n as [|n IH]; intros data st; simpl.
  - unfold pure, ret. eauto.
  - unfold andthen at 1.
    destruct (synthetic_trade_returns st) as (d & st1 & Hd). rewrite Hd.
    apply IH.
Qed.

(** The synthetic data set does not depend on the state it is called in: the
    generator is seeded anew. *)
Lemma generate_synthetic_data_returns (n_samples : Z) :
  exists synthetic st', forall st,
    generate_synthetic_data n_samples st = (inr synthetic, st').
Proof.
  unfold TrainModel.generate_synthetic_data, andthen.
  destruct (synthetic_loop_returns (Z.to_nat n_samples) [] (seed 42))
    as (data & st1 & Hd).
  rewrite Hd. unfold pure, ret. eauto.
Qed.

(** The cases of [fetch_trade_data], in terms of what
    [generate_synthetic_data] returns. *)
Lemma fetch_trade_data_cases (env : Environ) (db : InfluxDB) :
  exists synthetic st_syn,
    (forall st, generate_synthetic_data 500 st = (inr synthetic, st_syn)) /\
    forall st,
      (exists df st', fetch_trade_data env db st = (inr df, st')) /\
      (INFLUXDB_TOKEN env = "" ->
       fetch_trade_data env db st = (inr synthetic, st_syn)) /\
      (INFLUXDB_TOKEN env <> "" ->
       forall e,
         connect db (INFLUXDB_URL env) (INFLUXDB_TOKEN env) (INFLUXDB_ORG env) = inl e \/
         query db (flux_query env) = inl e \/
         close db = inl e ->
         fetch_trade_data env db st = (inr synthetic, st_syn)) /\
      (INFLUXDB_TOKEN env <> "" ->
       forall tables,
         connect db (INFLUXDB_URL env) (INFLUXDB_TOKEN env) (INFLUXDB_ORG env) = inr tt ->
         query db (flux_query env) = inr tables ->
         close db = inr tt ->
         let records := map trade_record (List.concat tables) in
         fetch_trade_data env db st =
           if (length records <? 50)%nat
           then (inr (concat (frame_of_records records) synthetic), st_syn)
           else (inr (frame_of_records records), st)).
Proof.
  destruct (generate_synthetic_data_returns 500) as (synthetic & st_syn & Hsyn).
  exists synthetic, st_syn. split; [exact Hsyn|]. intros st.
  assert (Hbody : forall tables,
    connect db (INFLUXDB_URL env) (INFLUXDB_TOKEN env) (INFLUXDB_ORG env) = inr tt ->
    query db (flux_query env) = inr tables ->
    close db = inr tt ->
    fetch_body env db st =
      if (length (map trade_record (List.concat tables)) <? 50)%nat
      then (inr (concat (frame_of_records (map trade_record (List.concat tables)))
                   synthetic), st_syn)
      else (inr (frame_of_records (map trade_record (List.concat tables))), st)).
  { intros tables Hc Hq Hx.
    unfold TrainModel.fetch_body, andthen, lift. rewrite Hc, Hq, Hx.
    destruct (length (map trade_record (List.concat tables)) <? 50)%nat.
    - rewrite Hsyn. reflexivity.
    - reflexivity. }
  assert (Hfail : forall e,
    connect db (INFLUXDB_URL env) (INFLUXDB_TOKEN env) (INFLUXDB_ORG env) = inl e \/
    query db (flux_query env) = inl e \/
    close db = inl e ->
    exists e', fetch_body env db st = (inl e', st)).
  { intros e H. unfold TrainModel.fetch_body, andthen, lift.
    destruct (connect db _ _ _) as [e1|[]]; [eauto|].
    destruct (query db _) as [e2|tables]; [eauto|].
    destruct (close db) as [e3|[]]; [eauto|].
    destruct H as [H|[H|H]]; discriminate H. }
  unfold TrainModel.fetch_trade_data.
  destruct (INFLUXDB_TOKEN env =? "")%string eqn:Htok.
  - split; [eauto|]. split; [intros _; apply Hsyn|].
    apply String.eqb_eq in Htok. split; intros Hne; contradiction.
  - unfold try_run. split; [|split; [|split]].
    + destruct (connect db (INFLUXDB_URL env) (INFLUXDB_TOKEN env) (INFLUXDB_ORG env))
        as [e1|[]] eqn:Hc.
      { destruct (Hfail e1 (or_introl eq_refl)) as (e' & He). rewrite He, Hsyn. eauto. }
      destruct (query db (flux_query env)) as [e2|tables] eqn:Hq.
      { destruct (Hfail e2 (or_intror (or_introl eq_refl))) as (e' & He).
        rewrite He, Hsyn. eauto. }
      destruct (close db) as [e3|[]] eqn:Hx.
      { destruct (Hfail e3 (or_intror (or_intror eq_refl))) as (e' & He).
        rewrite He, Hsyn. eauto. }
      rewrite (Hbody tables eq_refl eq_refl eq_refl).
      destruct (length (map trade_record (List.concat tables)) <? 50)%nat; eauto.
    + apply String.eqb_neq in Htok. intros E. contradiction.
    + intros _ e H. destruct (Hfail e H) as (e' & He). rewrite He. apply Hsyn.
    + intros _ tables Hc Hq Hx. simpl. rewrite (Hbody tables Hc Hq Hx).
      destruct (length (map trade_record (List.concat tables)) <? 50)%nat;
        reflexivity.
Qed.

End ScriptFacts.

(** A run with the stand-in generator: an unreachable database gives the 500
    synthetic rows, a database with one closed position gives 501 rows whose
    first is that position. *)
Example fetch_trade_data_runs :
  let run := fetch_trade_data nat TrainSamples.counter_seed TrainSamples.counter_choice
               TrainSamples.counter_uniform TrainSamples.counter_random in
  let env := setenv "INFLUXDB_TOKEN" "secret" no_environ in
  (exists df st, run no_environ TrainSamples.small_db 0%nat = (inr df, st) /\
                 len df = 500%nat) /\
  (exists df st, run env TrainSamples.unreachable_db 0%nat = (inr df, st) /\
                 len df = 500%nat) /\
  (exists df st, run env TrainSamples.small_db 0%nat = (inr df, st) /\
                 len df = 501%nat /\
                 columns df =
                   ["timestamp"; "symbol"; "side"; "pnl"; "entry_price"; "exit_price";
                    "rsi"; "macd"; "macd_signal"; "ema_alignment"; "atr_percent";
                    "volume_ratio"; "cvd"; "adx"; "price"; "win"] /\
                 nth_error (rows df) 0 =
                   Some [ ("timestamp", Time 1700000000); ("symbol", Str "BTCUSDT");
                          ("side", Str "BUY"); ("pnl", Num 12.5);
                          ("entry_price", Num 50000); ("exit_price", Num 50500) ]).
Proof.
  repeat split; eexists; eexists; (split; [vm_compute; reflexivity|]);
    repeat split; vm_compute; reflexivity.
Qed.

Lemma select_columns df ks X :
  select df ks = inr X -> columns X = ks.
Proof.
  unfold select. destruct (filter _ ks); [|discriminate].
  intros H. inversion H. reflexivity.
Qed.

Lemma set_column_columns df k vs df' :
  set_column df k vs = inr df' ->
  columns df' = if mem k (columns df) then columns df else columns df ++ [k].
Proof.
  unfold set_column. destruct (zip_set (rows df) k vs); [|discriminate].
  intros H. inversion H. reflexivity.
Qed.

(** The columns of the training matrix, in the order [prepare_features]
    builds them: the eight selected columns, then the two derived ones. *)
Lemma prepare_features_columns RandomState uniform df st X y st' :
  prepare_features RandomState uniform df st = (inr (X, y), st') ->
  columns X =
    ["rsi"; "macd"; "macd_signal"; "ema_alignment"; "atr_percent";
     "volume_ratio"; "cvd"; "adx"; "macd_histogram"; "side_encoded"].
Proof.
  unfold prepare_features, andthen, lift, pure.
  intros H.
  repeat match type of H with
    | context [match ?c with _ => _ end] =>
        lazymatch c with
        | context [match _ with _ => _ end] => fail
        | _ => destruct c eqn:?; try discriminate H
        end
    end;
    inversion H; subst;
    repeat match goal with
      | E : select _ _ = inr _ |- _ => apply select_columns in E
      | E : set_column _ _ _ = inr _ |- _ => apply set_column_columns in E
      end;
    repeat match goal with
      | E : columns _ = _ |- _ => rewrite E; clear E
      end;
    reflexivity.
Qed.

(** The training row of any signal: the indicators in the order rsi, macd,
    macd_signal, ema_alignment, atr_percent, volume_ratio, cvd, adx, then the
    histogram and the side. *)
Lemma prepare_features_row RandomState uniform st request pnl win :
  exists X y,
    prepare_features RandomState uniform
      (frame_of_records [TrainSamples.training_record request pnl win]) st =
      (inr (X, y), st) /\
    y = [Int win] /\
    values X =
      [[ Num (rsi request); Num (macd request); Num (macd_signal request);
         Num (ema_alignment request); Num (atr_percent request);
         Num (volume_ratio request); Num (cvd request); Num (adx request);
         Num (macd request - macd_signal request);
         Num (if (side request =? "BUY")%string then 1.0 else 0.0) ]].
Proof.
  eexists. eexists. split; [cbv; reflexivity|]. split; [reflexivity|].
  cbv. destruct (String.eqb (side request) "BUY"); reflexivity.
Qed.

(** C1 at a concrete record: for the confirmed long entry the training matrix
    has the columns rsi, macd, macd_signal, ema_alignment, atr_percent,
    volume_ratio, cvd, adx, macd_histogram, side_encoded, while the serving
    array has the histogram in fourth place; the two rows differ from the
    fourth entry on. *)
Theorem feature_order_differs RandomState uniform st :
  let request := Samples.buy_request "BTCUSDT" in
  let df := frame_of_records [TrainSamples.training_record request 12.5 1] in
  exists X y,
    prepare_features RandomState uniform df st = (inr (X, y), st) /\
    columns X =
      ["rsi"; "macd"; "macd_signal"; "ema_alignment"; "atr_percent";
       "volume_ratio"; "cvd"; "adx"; "macd_histogram"; "side_encoded"] /\
    values X =
      [[ Num 50; Num 0.1; Num 0.05; Num 1.0; Num 1.5; Num 1.5; Num 100; Num 30;
         Num (0.1 - 0.05); Num 1.0 ]] /\
    TrainSamples.feature_cells request =
      [[ Num 50; Num 0.1; Num 0.05; Num (0.1 - 0.05); Num 1.0; Num 1.5; Num 1.5;
         Num 100; Num 30; Num 1.0 ]] /\
    TrainSamples.float_at (values X) 0 3 = Some 1.0 /\
    TrainSamples.float_at (TrainSamples.feature_cells request) 0 3 = Some (0.1 - 0.05) /\
    values X <> TrainSamples.feature_cells request.
Proof.
  intros request df. eexists. eexists. split; [vm_compute; reflexivity|].
  repeat split; try (vm_compute; reflexivity).
  intros E.
  assert (C : option_map (fun x => x <? 0.5)
                (TrainSamples.float_at
                   [[ Num 50; Num 0.1; Num 0.05; Num 1.0; Num 1.5; Num 1.5; Num 100;
                      Num 30; Num (0.1 - 0.05); Num 1.0 ]] 0 3) =
              option_map (fun x => x <? 0.5)
                (TrainSamples.float_at (TrainSamples.feature_cells request) 0 3)).
  { f_equal. f_equal. exact E. }
  vm_compute in C. discriminate C.
Qed.

(** * Further properties *)

(** ** More on the order of binary64 values *)

Section FloatOrderMore.

Lemma SFcompare_refl (x : spec_float) :
  x <> S754_nan -> SFcompare x x = Some Eq.
Proof.
  destruct x as [s|s| |s m e]; simpl; intros H; try congruence;
    try (destruct s; reflexivity).
  change (Pos.compare_cont Eq) with Pos.compare.
  rewrite Z.compare_refl, Pos.compare_refl. destruct s; reflexivity.
Qed.

Lemma SFcompare_eq_l (x y z : spec_float) :
  SFcompare x y = Some Eq -> SFcompare x z = SFcompare y z.
Proof.
  destruct x as [sx|sx| |sx mx ex], y as [sy|sy| |sy my ey],
           z as [sz|sz| |sz mz ez]; simpl;
    try discriminate;
    try (destruct sx); try (destruct sy); try (destruct sz); simpl;
    try discriminate; try reflexivity;
    change (Pos.compare_cont Eq) with Pos.compare;
    intros H; inversion H as [H']; clear H;
    destruct (Z.compare_spec ex ey); try discriminate;
    destruct (Pos.compare_spec mx my); try discriminate;
    subst; reflexivity.
Qed.

Lemma is_nan_decoded (x : float) :
  PrimFloat.is_nan x = true -> Prim2SF x = S754_nan.
Proof.
  unfold PrimFloat.is_nan. rewrite FloatAxioms.eqb_spec. unfold SFeqb.
  intros H. destruct (Prim2SF x) as [s|s| |s m e] eqn:E; try reflexivity;
    rewrite SFcompare_refl in H by discriminate; discriminate H.
Qed.

Lemma SFcompare_nan_r (x : spec_float) : SFcompare x S754_nan = None.
Proof. destruct x; reflexivity. Qed.

(** Every comparison with NaN is false. *)
Lemma nan_compares_false (x y : float) :
  PrimFloat.is_nan x = true ->
  (x <? y) = false /\ (y <? x) = false /\ (x <=? y) = false /\ (y <=? x) = false.
Proof.
  intros H. apply is_nan_decoded in H.
  rewrite !ltb_spec, !leb_spec. unfold SFltb, SFleb.
  rewrite H, SFcompare_nan_r. simpl. repeat split; reflexivity.
Qed.

Lemma leb_trans (x y z : float) :
  (x <=? y) = true -> (y <=? z) = true -> (x <=? z) = true.
Proof.
  rewrite !leb_spec. unfold SFleb.
  destruct (SFcompare (Prim2SF x) (Prim2SF y)) as [[ | | ]|] eqn:E1;
    try discriminate; intros _.
  - rewrite (SFcompare_eq_l _ _ _ E1). trivial.
  - destruct (SFcompare (Prim2SF y) (Prim2SF z)) as [[ | | ]|] eqn:E2;
      try discriminate; intros _;
      rewrite (SFcompare_lt_trans _ _ _ _ E1 E2); congruence.
Qed.

End FloatOrderMore.

(** ** More on the online service *)

(** Splits on every comparison and side test of the request [r]. *)
Ltac split_tests r :=
  repeat match goal with
    | |- context [String.eqb (side r) ?s] => destruct (String.eqb (side r) s)
    | |- context [PrimFloat.leb ?a (?f r)] => destruct (PrimFloat.leb a (f r))
    | |- context [PrimFloat.leb (?f r) ?a] => destruct (PrimFloat.leb (f r) a)
    | |- context [PrimFloat.ltb (?f r) ?a] => destruct (PrimFloat.ltb (f r) a)
    | |- context [Py.gtb (?f r) ?a] => destruct (Py.gtb (f r) a)
    end.

(** X1: the rule-based score reads only the side, RSI, ADX, CVD, volume ratio
    and EMA alignment of a request; the symbol, MACD, MACD signal, ATR and
    price never change it. *)
Theorem fallback_score_reads_six_fields (r1 r2 : SignalRequest) :
  side r1 = side r2 -> rsi r1 = rsi r2 -> adx r1 = adx r2 -> cvd r1 = cvd r2 ->
  volume_ratio r1 = volume_ratio r2 -> ema_alignment r1 = ema_alignment r2 ->
  calculate_fallback_score r1 = calculate_fallback_score r2.
Proof.
  intros Hs Hr Ha Hc Hv He. unfold_steps.
  rewrite Hs, Hr, Ha, Hc, Hv, He. reflexivity.
Qed.

Lemma fallback_score_reads_six_fields_witness :
  calculate_fallback_score (Samples.buy_request "BTCUSDT") =
  calculate_fallback_score MoreSamples.other_buy_request.
Proof.
  apply (fallback_score_reads_six_fields (Samples.buy_request "BTCUSDT")
           MoreSamples.other_buy_request); reflexivity.
Defined.

(** X2: an indicator that is NaN earns no bonus: each rule leaves the running
    score as it is when its indicator is NaN, and with all five NaN the score
    is the base 0.5, whatever the side. *)
Theorem nan_indicators_earn_no_bonus (request : SignalRequest) :
  (PrimFloat.is_nan (rsi request) = true -> forall s, rsi_step request s = s) /\
  (PrimFloat.is_nan (adx request) = true -> forall s, adx_step request s = s) /\
  (PrimFloat.is_nan (cvd request) = true -> forall s, cvd_step request s = s) /\
  (PrimFloat.is_nan (volume_ratio request) = true ->
   forall s, volume_step request s = s) /\
  (PrimFloat.is_nan (ema_alignment request) = true ->
   forall s, ema_step request s = s) /\
  (PrimFloat.is_nan (rsi request) = true -> PrimFloat.is_nan (adx request) = true ->
   PrimFloat.is_nan (cvd request) = true ->
   PrimFloat.is_nan (volume_ratio request) = true ->
   PrimFloat.is_nan (ema_alignment request) = true ->
   calculate_fallback_score request = 0.5).
Proof.
  assert (R : PrimFloat.is_nan (rsi request) = true ->
              forall s, rsi_step request s = s).
  { intros H s. unfold rsi_step, Py.gtb.
    destruct (nan_compares_false (rsi request) 40 H) as (_ & _ & _ & E1).
    destruct (nan_compares_false (rsi request) 30 H) as (E2 & _ & _ & _).
    destruct (nan_compares_false (rsi request) 70 H) as (_ & E3 & _ & _).
    rewrite E1, E2, E3. simpl. destruct (side request =? "BUY")%string; reflexivity. }
  assert (A : PrimFloat.is_nan (adx request) = true ->
              forall s, adx_step request s = s).
  { intros H s. unfold adx_step, Py.gtb.
    destruct (nan_compares_false (adx request) 25 H) as (_ & E1 & _ & _).
    destruct (nan_compares_false (adx request) 20 H) as (_ & E2 & _ & _).
    rewrite E1, E2. reflexivity. }
  assert (C : PrimFloat.is_nan (cvd request) = true ->
              forall s, cvd_step request s = s).
  { intros H s. unfold cvd_step, Py.gtb.
    destruct (nan_compares_false (cvd request) 0 H) as (E1 & E2 & _ & _).
    rewrite E1, E2, !andb_false_r. reflexivity. }
  assert (V : PrimFloat.is_nan (volume_ratio request) = true ->
              forall s, volume_step request s = s).
  { intros H s. unfold volume_step, Py.gtb.
    destruct (nan_compares_false (volume_ratio request) 1.2 H) as (_ & E1 & _ & _).
    rewrite E1. reflexivity. }
  assert (E : PrimFloat.is_nan (ema_alignment request) = true ->
              forall s, ema_step request s = s).
  { intros H s. unfold ema_step, Py.gtb.
    destruct (nan_compares_false (ema_alignment request) 0 H) as (E1 & E2 & _ & _).
    rewrite E1, E2, !andb_false_r. reflexivity. }
  repeat split; try assumption.
  intros H1 H2 H3 H4 H5. unfold calculate_fallback_score, fallback_sum.
  rewrite (R H1), (A H2), (C H3), (V H4), (E H5). reflexivity.
Qed.

Lemma nan_indicators_earn_no_bonus_witness :
  (forall s, rsi_step Samples.nan_request s = s) /\
  (forall s, adx_step Samples.nan_request s = s).
Proof.
  destruct (nan_indicators_earn_no_bonus Samples.nan_request) as (R & A & _).
  split; [apply R|apply A]; reflexivity.
Defined.

(** X3: when [float] cannot read MIN_PROBABILITY, a request that got as far
    as a probability, from the rule-based scorer or from the model, fails
    with an HTTP error of status 500 carrying the conversion error's text. *)
Theorem unreadable_threshold_is_http_500 py_float model env request e :
  py_float (getenv env "MIN_PROBABILITY" "0.6") = inl e ->
  (model = None \/
   exists m proba p, model = Some m /\
                     predict_proba m (features request) = inr proba /\
                     index2 proba 0 1 = inr p) ->
  predict_signal py_float model env request = inl (mkHTTP 500 (exc_str e)).
Proof.
  intros Ht [Hm|(m & proba & p & Hm & Hp & Hi)]; subst model;
    unfold predict_signal, predict_body, try_except, bind, ret.
  - rewrite Ht. reflexivity.
  - rewrite Hp, Hi, Ht. reflexivity.
Qed.

Lemma unreadable_threshold_is_http_500_witness :
  predict_signal Decimal.float_of_string None
    (setenv "MIN_PROBABILITY" "high" no_environ) (Samples.buy_request "BTCUSDT") =
    inl (mkHTTP 500 "could not convert string to float: 'high'").
Proof.
  apply (unreadable_threshold_is_http_500 Decimal.float_of_string None
           (setenv "MIN_PROBABILITY" "high" no_environ)
           (Samples.buy_request "BTCUSDT")
           (Decimal.value_error "high")).
  - vm_compute. reflexivity.
  - left. reflexivity.
Defined.

(** X4: a request is answered with a response exactly when [float] can read
    the threshold and the model, if one is loaded, returns a matrix with an
    entry [[0][1]]. *)
Theorem predict_signal_succeeds_iff py_float model env request :
  (exists resp, predict_signal py_float model env request = inr resp) <->
  (exists thr, py_float (getenv env "MIN_PROBABILITY" "0.6") = inr thr) /\
  (forall m, model = Some m ->
             exists proba p, predict_proba m (features request) = inr proba /\
                             index2 proba 0 1 = inr p).
Proof.
  unfold predict_signal, predict_body, try_except, bind, ret. split.
  - intros (resp & H). destruct model as [m|].
    + destruct (predict_proba m (features request)) as [e|proba] eqn:Hp;
        [discriminate|].
      destruct (index2 proba 0 1) as [e|p] eqn:Hi; [discriminate|].
      destruct (py_float _) as [e|thr]; [discriminate|].
      split; [eauto|]. intros m' Hm. inversion Hm; subst m'.
      exists proba, p. split; assumption.
    + destruct (py_float _) as [e|thr]; [discriminate|].
      split; [eauto|]. intros m' Hm. discriminate Hm.
  - intros ((thr & Ht) & Hm). rewrite Ht. destruct model as [m|].
    + destruct (Hm m eq_refl) as (proba & p & Hp & Hi). rewrite Hp, Hi. eauto.
    + eauto.
Qed.

(** X5: the probability of a loaded model is reported as it comes, without
    clamping or checking: the response carries the entry [[0][1]] of the
    model's answer, and the recommendation and confidence computed from it. *)
Theorem model_probability_is_reported_as_is py_float m env request proba p thr :
  predict_proba m (features request) = inr proba ->
  index2 proba 0 1 = inr p ->
  py_float (getenv env "MIN_PROBABILITY" "0.6") = inr thr ->
  predict_signal py_float (Some m) env request =
    inr (mkResponse (symbol request) (side request) p (p >=? thr) (confidence_of p)).
Proof.
  intros Hp Hi Ht. unfold predict_signal, predict_body, try_except, bind, ret.
  rewrite Hp, Hi, Ht. reflexivity.
Qed.

Lemma model_probability_is_reported_as_is_witness :
  predict_signal Decimal.float_of_string (Some MoreSamples.overconfident_model)
    no_environ Samples.long_request =
    inr (mkResponse "BTCUSDT" "LONG" 1.5 true "HIGH").
Proof.
  apply (model_probability_is_reported_as_is Decimal.float_of_string
           MoreSamples.overconfident_model no_environ Samples.long_request
           [[-0.5; 1.5]] 1.5 0.6); vm_compute; reflexivity.
Defined.

(** X6: a response whose probability is NaN is never recommended, whatever
    the threshold, and its confidence is LOW. *)
Theorem nan_probability_is_low py_float model env request resp :
  predict_signal py_float model env request = inr resp ->
  PrimFloat.is_nan (probability resp) = true ->
  recommended resp = false /\ confidence resp = "LOW".
Proof.
  intros H Hn.
  destruct (predict_signal_response _ _ _ _ _ H) as (thr & _ & _ & _ & Hr & Hc).
  rewrite Hr, Hc. unfold confidence_of, Py.geb.
  destruct (nan_compares_false (probability resp) thr Hn) as (_ & _ & _ & E1).
  destruct (nan_compares_false (probability resp) 0.8 Hn) as (_ & _ & _ & E2).
  destruct (nan_compares_false (probability resp) 0.6 Hn) as (_ & _ & _ & E3).
  rewrite E1, E2, E3. split; reflexivity.
Qed.

Lemma nan_probability_is_low_witness :
  predict_signal Decimal.float_of_string (Some MoreSamples.nan_model)
    no_environ (Samples.buy_request "BTCUSDT") =
    inr (mkResponse "BTCUSDT" "BUY" nan false "LOW") /\
  recommended (mkResponse "BTCUSDT" "BUY" nan false "LOW") = false /\
  confidence (mkResponse "BTCUSDT" "BUY" nan false "LOW") = "LOW".
Proof.
  split; [vm_compute; reflexivity|].
  apply (nan_probability_is_low Decimal.float_of_string
           (Some MoreSamples.nan_model) no_environ (Samples.buy_request "BTCUSDT"));
    vm_compute; reflexivity.
Defined.

(** X7: under the threshold 0.6 a signal is recommended exactly when its
    confidence is not LOW, that is when it is MEDIUM or HIGH. *)
Theorem recommended_iff_not_low py_float model env request resp :
  py_float (getenv env "MIN_PROBABILITY" "0.6") = inr 0.6 ->
  predict_signal py_float model env request = inr resp ->
  (recommended resp = true <-> confidence resp <> "LOW") /\
  (recommended resp = true <->
   confidence resp = "MEDIUM" \/ confidence resp = "HIGH").
Proof.
  intros Ht H.
  destruct (predict_signal_response _ _ _ _ _ H) as (thr & Ht' & _ & _ & Hr & Hc).
  rewrite Ht in Ht'. inversion Ht'; subst thr. rewrite Hr, Hc.
  unfold confidence_of.
  assert (T : (probability resp >=? 0.8) = true -> (probability resp >=? 0.6) = true).
  { unfold Py.geb. intros H8. apply (leb_trans 0.6 0.8 _); [reflexivity|exact H8]. }
  destruct (probability resp >=? 0.8) eqn:H8;
    destruct (probability resp >=? 0.6) eqn:H6;
    try (specialize (T eq_refl); discriminate T);
    repeat split; intros; try discriminate; try congruence; auto;
    try (destruct H0; discriminate).
Qed.

Lemma recommended_iff_not_low_witness :
  let resp := mkResponse "BTCUSDT" "LONG" 0.6 true "MEDIUM" in
  (recommended resp = true <-> confidence resp <> "LOW") /\
  (recommended resp = true <->
   confidence resp = "MEDIUM" \/ confidence resp = "HIGH").
Proof.
  apply (recommended_iff_not_low Decimal.float_of_string None no_environ
           Samples.long_request); vm_compute; reflexivity.
Defined.

(** X8: the threshold decides the recommendation only: the same request under
    two thresholds gets the same probability and confidence, and a signal
    recommended under the higher threshold is recommended under the lower. *)
Theorem lower_threshold_keeps_recommendation
        py_float model env1 env2 request resp1 resp2 thr1 thr2 :
  py_float (getenv env1 "MIN_PROBABILITY" "0.6") = inr thr1 ->
  py_float (getenv env2 "MIN_PROBABILITY" "0.6") = inr thr2 ->
  (thr1 <=? thr2) = true ->
  predict_signal py_float model env1 request = inr resp1 ->
  predict_signal py_float model env2 request = inr resp2 ->
  probability resp1 = probability resp2 /\
  confidence resp1 = confidence resp2 /\
  (recommended resp2 = true -> recommended resp1 = true).
Proof.
  intros H1 H2 Hle. unfold predict_signal, predict_body, try_except, bind, ret.
  rewrite H1, H2.
  destruct model as [m|].
  - destruct (predict_proba m (features request)) as [e|proba]; [discriminate|].
    destruct (index2 proba 0 1) as [e|p]; [discriminate|].
    intros E1 E2. inversion E1; inversion E2; subst; simpl.
    repeat split. unfold Py.geb. intros H. exact (leb_trans _ _ _ Hle H).
  - intros E1 E2. inversion E1; inversion E2; subst; simpl.
    repeat split. unfold Py.geb. intros H. exact (leb_trans _ _ _ Hle H).
Qed.

Lemma lower_threshold_keeps_recommendation_witness :
  let resp := mkResponse "ETHUSDT" "BUY" 0.75 true "MEDIUM" in
  probability resp = probability resp /\
  confidence resp = confidence resp /\
  (recommended resp = true -> recommended resp = true).
Proof.
  apply (lower_threshold_keeps_recommendation Decimal.float_of_string
           (Some Samples.steady_model) no_environ
           (setenv "MIN_PROBABILITY" "0.7" no_environ)
           (Samples.buy_request "ETHUSDT")
           (mkResponse "ETHUSDT" "BUY" 0.75 true "MEDIUM")
           (mkResponse "ETHUSDT" "BUY" 0.75 true "MEDIUM") 0.6 0.7);
    vm_compute; reflexivity.
Defined.

(** X9: the confidence never drops as the probability grows: above a HIGH
    probability everything is HIGH, below a LOW one everything is LOW, and
    nothing above a MEDIUM one is LOW. *)
Theorem confidence_is_monotone (p q : float) :
  (p <=? q) = true ->
  (confidence_of p = "HIGH" -> confidence_of q = "HIGH") /\
  (confidence_of q = "LOW" -> confidence_of p = "LOW") /\
  (confidence_of p = "MEDIUM" -> confidence_of q <> "LOW").
Proof.
  intros Hle. unfold confidence_of.
  assert (T8 : (p >=? 0.8) = true -> (q >=? 0.8) = true).
  { unfold Py.geb. intros H. exact (leb_trans _ _ _ H Hle). }
  assert (T6 : (p >=? 0.6) = true -> (q >=? 0.6) = true).
  { unfold Py.geb. intros H. exact (leb_trans _ _ _ H Hle). }
  destruct (p >=? 0.8); destruct (p >=? 0.6);
    try (rewrite (T8 eq_refl)); try (rewrite (T6 eq_refl));
    destruct (q >=? 0.8); destruct (q >=? 0.6);
    repeat split; intros; try discriminate; try reflexivity.
Qed.

Lemma confidence_is_monotone_witness :
  (confidence_of 0.6 = "HIGH" -> confidence_of 0.8 = "HIGH") /\
  (confidence_of 0.8 = "LOW" -> confidence_of 0.6 = "LOW") /\
  (confidence_of 0.6 = "MEDIUM" -> confidence_of 0.8 <> "LOW").
Proof.
  apply (confidence_is_monotone 0.6 0.8). reflexivity.
Defined.

(** X10: three bonuses of 0.1 do not reach HIGH.  When the ADX rule and the
    lesser RSI bonus stay out and exactly three of the four rules worth 0.1
    (RSI in the band, order flow, volume, trend) fire, the score is
    0.5 + 0.1 + 0.1 + 0.1, which in binary64 is 0.7999999999999999, below 0.8:
    the confidence is MEDIUM. *)
Theorem three_confirmations_stay_medium (request : SignalRequest) :
  let in_band := (40 <=? rsi request) && (rsi request <=? 60) in
  let extreme :=
    negb in_band &&
    (if (side request =? "BUY")%string then rsi request <? 30
     else rsi request >? 70) in
  let flow :=
    ((side request =? "BUY")%string && (cvd request >? 0))
    || ((side request =? "SELL")%string && (cvd request <? 0)) in
  let volume := volume_ratio request >? 1.2 in
  let trend :=
    ((side request =? "BUY")%string && (ema_alignment request >? 0))
    || ((side request =? "SELL")%string && (ema_alignment request <? 0)) in
  (adx request >? 20) = false ->
  extreme = false ->
  (Nat.b2n in_band + Nat.b2n flow + Nat.b2n volume + Nat.b2n trend = 3)%nat ->
  calculate_fallback_score request = 0.7999999999999999 /\
  (calculate_fallback_score request <? 0.8) = true /\
  confidence_of (calculate_fallback_score request) = "MEDIUM".
Proof.
  cbv zeta. unfold_steps.
  assert (A : (adx request >? 20) = false -> (adx request >? 25) = false).
  { unfold Py.gtb. intros H.
    destruct (25 <? adx request) eqn:E; [|reflexivity].
    assert (L : (20 <? 25) = true) by reflexivity.
    revert H E L. rewrite !ltb_spec. unfold SFltb.
    destruct (SFcompare (Prim2SF 20) (Prim2SF 25)) as [[ | | ]|] eqn:E1;
      try discriminate.
    destruct (SFcompare (Prim2SF 25) (Prim2SF (adx request))) as [[ | | ]|] eqn:E2;
      try discriminate.
    rewrite (SFcompare_lt_trans _ _ _ Lt E1 E2); [discriminate|discriminate]. }
  intros Hadx. rewrite (A Hadx), Hadx. clear A Hadx.
  split_tests request; simpl; intros He Hc;
    try discriminate He; try discriminate Hc;
    vm_compute; repeat split; reflexivity.
Qed.

Lemma three_confirmations_stay_medium_witness :
  calculate_fallback_score MoreSamples.three_confirmations = 0.7999999999999999 /\
  (calculate_fallback_score MoreSamples.three_confirmations <? 0.8) = true /\
  confidence_of (calculate_fallback_score MoreSamples.three_confirmations) = "MEDIUM".
Proof.
  apply (three_confirmations_stay_medium MoreSamples.three_confirmations);
    vm_compute; reflexivity.
Defined.

(** X11: the rule-based score reaches 0.6, and with it the default threshold
    and the MEDIUM band, exactly when one of the rules worth at least 0.1
    fires (RSI in the band, ADX above 25, order flow, volume, trend), or the
    lesser RSI bonus and the lesser ADX bonus fire together. *)
Theorem fallback_score_reaches_threshold (request : SignalRequest) :
  let in_band := (40 <=? rsi request) && (rsi request <=? 60) in
  let extreme :=
    negb in_band &&
    (if (side request =? "BUY")%string then rsi request <? 30
     else rsi request >? 70) in
  let flow :=
    ((side request =? "BUY")%string && (cvd request >? 0))
    || ((side request =? "SELL")%string && (cvd request <? 0)) in
  let volume := volume_ratio request >? 1.2 in
  let trend :=
    ((side request =? "BUY")%string && (ema_alignment request >? 0))
    || ((side request =? "SELL")%string && (ema_alignment request <? 0)) in
  (calculate_fallback_score request >=? 0.6) =
    (in_band || (adx request >? 25) || flow || volume || trend
     || (extreme && (adx request >? 20))).
Proof.
  cbv zeta. unfold_steps.
  split_tests request; simpl; vm_compute; reflexivity.
Qed.

(** X12: at startup a model is in place exactly when the model file exists
    and loading it succeeds, and it is then the loaded object; a missing
    file, a failing existence check and a failing load all leave the service
    without a model. *)
Theorem load_model_loaded_iff (path_exists : Exc bool) (load : Exc Model) :
  (forall m, load_model path_exists load = Some m <->
             path_exists = inr true /\ load = inr m) /\
  (load_model path_exists load = None <->
   path_exists = inr false \/ (exists e, path_exists = inl e) \/
   (exists e, load = inl e)).
Proof.
  unfold load_model, try_except, bind, ret.
  destruct path_exists as [e|[|]]; destruct load as [e'|m']; simpl; split;
    try (intros m; split; [intros H|intros [H1 H2]]; try discriminate;
         try (inversion H; subst; split; reflexivity);
         try (inversion H2; subst; reflexivity));
    try (split; [intros H|intros H]; try discriminate; try reflexivity; eauto;
         destruct H as [H|[(e0 & H)|(e0 & H)]]; discriminate H).
Qed.

(** X13: a service that starts without a usable model still answers.  When
    the model file is missing or cannot be loaded, the health check reports
    that no model is loaded, and every request is answered with the
    rule-based score, provided [float] can read the threshold. *)
Theorem startup_failure_serves_fallback
        py_float path_exists load env request thr :
  path_exists = inr false \/ (exists e, path_exists = inl e) \/
  (exists e, load = inl e) ->
  py_float (getenv env "MIN_PROBABILITY" "0.6") = inr thr ->
  health_check (load_model path_exists load) = ("healthy", false) /\
  predict_signal py_float (load_model path_exists load) env request =
    inr (mkResponse (symbol request) (side request)
           (calculate_fallback_score request)
           (calculate_fallback_score request >=? thr)
           (confidence_of (calculate_fallback_score request))).
Proof.
  intros Hfail Ht.
  assert (E : load_model path_exists load = None).
  { unfold load_model, try_except, bind, ret.
    destruct Hfail as [H|[(e & H)|(e & H)]]; subst; try reflexivity.
    destruct path_exists as [e'|[|]]; reflexivity. }
  rewrite E. split; [reflexivity|].
  apply (predict_signal_fallback _ _ _ _ Ht).
Qed.

Lemma startup_failure_serves_fallback_witness :
  health_check (load_model (inr true) (inl (mkExc "UnpicklingError" "invalid load key")))
    = ("healthy", false) /\
  predict_signal Decimal.float_of_string
    (load_model (inr true) (inl (mkExc "UnpicklingError" "invalid load key")))
    no_environ Samples.long_request =
    inr (mkResponse (symbol Samples.long_request) (side Samples.long_request)
           (calculate_fallback_score Samples.long_request)
           (calculate_fallback_score Samples.long_request >=? 0.6)
           (confidence_of (calculate_fallback_score Samples.long_request))).
Proof.
  apply (startup_failure_serves_fallback Decimal.float_of_string (inr true)
           (inl (mkExc "UnpicklingError" "invalid load key")) no_environ
           Samples.long_request 0.6).
  - right. right. eexists. reflexivity.
  - vm_compute. reflexivity.
Defined.

(** ** More on the training script *)

(** *** Dictionaries and frames *)

Lemma dict_get_set_same (d : Dict) (k : string) (v : Cell) :
  dict_get (dict_set d k v) k = Some v.
Proof.
  induction d as [|[k' v'] d IH]; simpl.
  - rewrite String.eqb_refl. reflexivity.
  - destruct (k' =? k)%string eqn:E; simpl.
    + rewrite String.eqb_refl. reflexivity.
    + rewrite E. exact IH.
Qed.

Lemma dict_get_set_other (d : Dict) (k k' : string) (v : Cell) :
  k' <> k -> dict_get (dict_set d k v) k' = dict_get d k'.
Proof.
  intros Hne. induction d as [|[k0 v0] d IH]; simpl.
  - destruct (k =? k')%string eqn:E; [|reflexivity].
    apply String.eqb_eq in E. congruence.
  - destruct (k0 =? k)%string eqn:E; simpl.
    + apply String.eqb_eq in E. subst k0.
      destruct (k =? k')%string eqn:E'; [|reflexivity].
      apply String.eqb_eq in E'. congruence.
    + destruct (k0 =? k')%string; [reflexivity|exact IH].
Qed.

Lemma cell_at_set_same (d : Dict) (k : string) (v : Cell) :
  cell_at (dict_set d k v) k = v.
Proof. unfold cell_at, dict_get_default. rewrite dict_get_set_same. reflexivity. Qed.

Lemma cell_at_set_other (d : Dict) (k k' : string) (v : Cell) :
  k' <> k -> cell_at (dict_set d k v) k' = cell_at d k'.
Proof.
  intros H. unfold cell_at, dict_get_default.
  rewrite (dict_get_set_other _ _ _ _ H). reflexivity.
Qed.

Lemma zip_set_length (ds : list Dict) (k : string) :
  forall vs rs, zip_set ds k vs = Some rs ->
                length rs = length ds /\ length vs = length ds.
Proof.
  induction ds as [|d ds IH]; intros [|v vs] rs; simpl; try discriminate.
  - intros H. inversion H. split; reflexivity.
  - destruct (zip_set ds k vs) as [r|] eqn:E; [|discriminate].
    intros H. inversion H; subst. destruct (IH _ _ E) as [H1 H2].
    simpl. split; congruence.
Qed.

Lemma zip_set_defined (ds : list Dict) (k : string) :
  forall vs, length vs = length ds -> exists rs, zip_set ds k vs = Some rs.
Proof.
  induction ds as [|d ds IH]; intros [|v vs]; simpl; try discriminate.
  - eauto.
  - intros H. inversion H as [H']. destruct (IH _ H') as (rs & E).
    rewrite E. eauto.
Qed.

Lemma zip_set_same (ds : list Dict) (k : string) :
  forall vs rs, zip_set ds k vs = Some rs -> map (fun d => cell_at d k) rs = vs.
Proof.
  induction ds as [|d ds IH]; intros [|v vs] rs; simpl; try discriminate.
  - intros H. inversion H. reflexivity.
  - destruct (zip_set ds k vs) as [r|] eqn:E; [|discriminate].
    intros H. inversion H; subst. simpl.
    rewrite cell_at_set_same, (IH _ _ E). reflexivity.
Qed.

Lemma zip_set_other (ds : list Dict) (k k' : string) :
  k' <> k ->
  forall vs rs, zip_set ds k vs = Some rs ->
                map (fun d => cell_at d k') rs = map (fun d => cell_at d k') ds.
Proof.
  intros Hne.
  induction ds as [|d ds IH]; intros [|v vs] rs; simpl; try discriminate.
  - intros H. inversion H. reflexivity.
  - destruct (zip_set ds k vs) as [r|] eqn:E; [|discriminate].
    intros H. inversion H; subst. simpl.
    rewrite (cell_at_set_other _ _ _ _ Hne), (IH _ _ E). reflexivity.
Qed.

Lemma mem_In (k : string) (l : list string) : mem k l = true <-> In k l.
Proof.
  unfold mem. rewrite existsb_exists. split.
  - intros (x & Hin & E). apply String.eqb_eq in E. subst. exact Hin.
  - intros H. exists k. split; [exact H|apply String.eqb_refl].
Qed.

Lemma mem_app (k : string) (l1 l2 : list string) :
  mem k (l1 ++ l2) = mem k l1 || mem k l2.
Proof. unfold mem. apply existsb_app. Qed.

(** Assigning a column: its length, its labels, and what reads back. *)
Lemma set_column_spec (df : DataFrame) (k : string) (vs : Series) (df' : DataFrame) :
  set_column df k vs = inr df' ->
  len df' = len df /\ length vs = len df /\
  get_column df' k = inr vs /\
  (forall k', mem k' (columns df') = mem k' (columns df) || (k' =? k)%string) /\
  (forall k', k' <> k -> mem k' (columns df) = true ->
              get_column df' k' = get_column df k').
Proof.
  unfold set_column, len.
  destruct (zip_set (rows df) k vs) as [rs|] eqn:E; [|discriminate].
  intros H. inversion H; subst; clear H. simpl.
  destruct (zip_set_length _ _ _ _ E) as [L1 L2].
  assert (M : forall k', mem k' (if mem k (columns df) then columns df
                                  else columns df ++ [k]) =
                         mem k' (columns df) || (k' =? k)%string).
  { intros k'. destruct (mem k (columns df)) eqn:Hk.
    - destruct (k' =? k)%string eqn:E'.
      + apply String.eqb_eq in E'. subst. rewrite Hk. reflexivity.
      + rewrite orb_false_r. reflexivity.
    - rewrite mem_app. simpl. rewrite orb_false_r, String.eqb_sym. reflexivity. }
  repeat split; try assumption.
  - unfold get_column. simpl. rewrite M, String.eqb_refl, orb_true_r.
    rewrite (zip_set_same _ _ _ _ E). reflexivity.
  - intros k' Hne Hm. unfold get_column. simpl. rewrite M, Hm. simpl.
    rewrite (zip_set_other _ _ _ Hne _ _ E). reflexivity.
Qed.

Lemma set_column_defined (df : DataFrame) (k : string) (vs : Series) :
  length vs = len df -> exists df', set_column df k vs = inr df'.
Proof.
  intros H. unfold set_column.
  destruct (zip_set_defined (rows df) k vs H) as (rs & E). rewrite E. eauto.
Qed.

Lemma get_column_length (df : DataFrame) (k : string) (vs : Series) :
  get_column df k = inr vs -> length vs = len df.
Proof.
  unfold get_column, len. destruct (mem k (columns df)); [|discriminate].
  intros H. inversion H. apply length_map.
Qed.

(** *** The synthetic data set *)

Import Shapes.

Lemma trade_rows_columns (trades : list Trade) :
  fold_left (fun acc d => union_labels acc (map fst d)) (map trade_row trades)
    synthetic_columns = synthetic_columns.
Proof.
  induction trades as [|[[r pnl] win] l IH]; simpl; [reflexivity|exact IH].
Qed.

(** A frame built from trades has the twelve synthetic columns, unless it is
    empty, and then it has none. *)
Lemma frame_of_trades (trades : list Trade) :
  frame_of_records (map trade_row trades) =
    mkFrame (match trades with [] => [] | _ => synthetic_columns end)
            (map trade_row trades).
Proof.
  unfold frame_of_records. f_equal.
  destruct trades as [|[[r pnl] win] l]; [reflexivity|].
  simpl. apply trade_rows_columns.
Qed.

Section SyntheticFacts.

Variable RandomState : Type.
Variable seed : Z -> RandomState.
Variable choice : list string -> RandomState -> string * RandomState.
Variable uniform : float -> float -> RandomState -> float * RandomState.
Variable random : RandomState -> float * RandomState.

Local Abbreviation synthetic_trade := (synthetic_trade RandomState choice uniform random).
Local Abbreviation synthetic_loop := (synthetic_loop RandomState choice uniform random).
Local Abbreviation generate_synthetic_data :=
  (generate_synthetic_data RandomState seed choice uniform random).
Local Abbreviation fetch_body := (fetch_body RandomState seed choice uniform random).
Local Abbreviation fetch_trade_data :=
  (fetch_trade_data RandomState seed choice uniform random).

Lemma synthetic_trade_is_trade (st : RandomState) :
  exists t st', synthetic_trade st = (inr (trade_row t), st') /\ binary_label t.
Proof.
  destruct (synthetic_trade_label RandomState choice uniform random st)
    as (side & rsi & macd & macd_signal & ema & atr & vol & cvd & adx & price
        & pnl & u & st' & H).
  exists (mkRequest "" side rsi macd macd_signal ema atr vol cvd adx price, pnl,
          if u <? win_prob side rsi adx cvd vol ema then 1%Z else 0%Z), st'.
  split; [exact H|]. simpl.
  destruct (u <? win_prob side rsi adx cvd vol ema); auto.
Qed.

Lemma synthetic_loop_trades (n : nat) :
  forall data st, exists trades st',
    synthetic_loop n data st = (inr (data ++ map trade_row trades), st') /\
    length trades = n /\ Forall binary_label trades.
Proof.
  induction n as [|n IH]; intros data st; simpl.
  - exists [], st. unfold pure, ret. rewrite app_nil_r. auto.
  - unfold andthen at 1.
    destruct (synthetic_trade_is_trade st) as (t & st1 & Ht & Hb). rewrite Ht.
    destruct (IH (data ++ [trade_row t]) st1) as (trades & st2 & Hl & Hn & Hf).
    exists (t :: trades), st2. rewrite Hl, <- app_assoc. simpl.
    repeat split; [congruence|constructor; assumption].
Qed.


(** The rows of the synthetic data set are trades. *)
Lemma generate_synthetic_data_trades (n_samples : Z) (st : RandomState) :
  exists trades st',
    generate_synthetic_data n_samples st =
      (inr (mkFrame (if (0 <? n_samples)%Z then synthetic_columns else [])
              (map trade_row trades)), st') /\
    length trades = Z.to_nat n_samples /\
    Forall binary_label trades.
Proof.
  unfold TrainModel.generate_synthetic_data, andthen.
  destruct (synthetic_loop_trades (Z.to_nat n_samples) [] (seed 42))
    as (trades & st' & Hl & Hn & Hf).
  exists trades, st'. rewrite Hl. simpl. unfold pure, ret.
  rewrite frame_of_trades. repeat split; try assumption.
  do 2 f_equal. f_equal.
  destruct trades as [|t l]; simpl in Hn.
  - destruct (Z.ltb_spec 0 n_samples); [lia|reflexivity].
  - destruct (Z.ltb_spec 0 n_samples); [reflexivity|lia].
Qed.

(** X14: [generate_synthetic_data] returns a frame with as many rows as
    samples were asked for (none for a negative number), each row a trade with
    the twelve synthetic columns and a label that is 0 or 1; the frame has
    those twelve columns, or no column at all when it has no row. *)
Theorem generate_synthetic_data_shape (n_samples : Z) (st : RandomState) :
  exists trades st',
    generate_synthetic_data n_samples st =
      (inr (mkFrame (if (0 <? n_samples)%Z then synthetic_columns else [])
              (map trade_row trades)), st') /\
    length trades = Z.to_nat n_samples /\
    Forall binary_label trades.
Proof. exact (generate_synthetic_data_trades n_samples st). Qed.

(** X15: the synthetic data set is reproducible: the generator is seeded anew
    at every call, so two calls return the same frame and leave the same
    random state, whatever the state before either call. *)
Theorem generate_synthetic_data_reseeds (n_samples : Z) (st1 st2 : RandomState) :
  generate_synthetic_data n_samples st1 = generate_synthetic_data n_samples st2 /\
  exists synthetic st', generate_synthetic_data n_samples st1 = (inr synthetic, st').
Proof.
  destruct (generate_synthetic_data_returns RandomState seed choice uniform random
              n_samples) as (synthetic & st' & H).
  split; [rewrite (H st1), (H st2); reflexivity|].
  exists synthetic, st'. apply H.
Qed.

(** What [fetch_trade_data] returns: the synthetic frame, or the fetched
    records, with the synthetic rows after them when they are fewer than 50. *)
Lemma fetch_trade_data_result (env : Environ) (db : InfluxDB) (st : RandomState) :
  exists synthetic st_syn,
    (forall st0, generate_synthetic_data 500 st0 = (inr synthetic, st_syn)) /\
    (fetch_trade_data env db st = (inr synthetic, st_syn) \/
     exists tables,
       INFLUXDB_TOKEN env <> "" /\
       query db (flux_query env) = inr tables /\
       fetch_trade_data env db st =
         if (length (map trade_record (List.concat tables)) <? 50)%nat
         then (inr (concat (frame_of_records
                              (map trade_record (List.concat tables))) synthetic),
               st_syn)
         else (inr (frame_of_records (map trade_record (List.concat tables))), st)).
Proof.
  destruct (generate_synthetic_data_returns RandomState seed choice uniform random 500)
    as (synthetic & st_syn & Hsyn).
  exists synthetic, st_syn. split; [exact Hsyn|].
  unfold TrainModel.fetch_trade_data.
  destruct (INFLUXDB_TOKEN env =? "")%string eqn:Htok; [left; apply Hsyn|].
  apply String.eqb_neq in Htok.
  unfold try_run, TrainModel.fetch_body, andthen, lift.
  destruct (connect db _ _ _) as [e1|[]]; [left; apply Hsyn|].
  destruct (query db (flux_query env)) as [e2|tables] eqn:Hq; [left; apply Hsyn|].
  destruct (close db) as [e3|[]]; [left; apply Hsyn|].
  right. exists tables. split; [exact Htok|]. split; [reflexivity|].
  destruct (length (map trade_record (List.concat tables)) <? 50)%nat.
  - rewrite Hsyn. reflexivity.
  - reflexivity.
Qed.

(** X16: [fetch_trade_data] never returns fewer than 50 rows: it returns the
    500 synthetic rows, or at least 50 fetched ones, or fewer than 50 fetched
    ones followed by the 500 synthetic rows. *)
Theorem fetch_trade_data_at_least_50_rows
        (env : Environ) (db : InfluxDB) (st : RandomState) :
  exists df st', fetch_trade_data env db st = (inr df, st') /\
                 (50 <= len df)%nat /\
                 (INFLUXDB_TOKEN env = "" -> len df = 500%nat).
Proof.
  destruct (fetch_trade_data_result env db st)
    as (synthetic & st_syn & Hsyn & Hres).
  assert (L : len synthetic = 500%nat).
  { destruct (generate_synthetic_data_trades 500 st) as (trades & st' & Hg & Hn & _).
    rewrite (Hsyn st) in Hg. inversion Hg; subst. unfold len. simpl.
    rewrite length_map. exact Hn. }
  destruct Hres as [H|(tables & Htok & Hq & H)].
  - exists synthetic, st_syn. split; [exact H|]. rewrite L. split; [lia|reflexivity].
  - destruct (Nat.ltb_spec (length (map trade_record (List.concat tables))) 50)
      as [Hlt|Hge].
    + eexists. eexists. split; [exact H|]. unfold len, concat. simpl.
      rewrite length_app. fold (len synthetic). rewrite L.
      split; [lia|intros E; contradiction].
    + eexists. eexists. split; [exact H|]. unfold len, frame_of_records. simpl.
      split; [exact Hge|intros E; contradiction].
Qed.

(** C8: [fetch_trade_data] always returns a data set.  The synthetic data
    set is 500 rows, each a synthetic trade with the twelve synthetic columns
    and a label that is 0 or 1.  Without a token, and when building the
    client, the query or closing the client raises, the result is that data
    set and nothing else; when the query yields fewer than 50 records, it is
    those records followed by the 500 synthetic rows; otherwise it is the
    records fetched. *)
Theorem fetch_trade_data_returns (env : Environ) (db : InfluxDB) :
  exists trades st_syn,
    length trades = 500%nat /\
    Forall binary_label trades /\
    let synthetic := mkFrame synthetic_columns (map trade_row trades) in
    (forall st, generate_synthetic_data 500 st = (inr synthetic, st_syn)) /\
    len synthetic = 500%nat /\
    (forall records,
       rows (concat (frame_of_records records) synthetic) =
         records ++ map trade_row trades /\
       len (concat (frame_of_records records) synthetic) =
         (length records + 500)%nat) /\
    forall st,
      (exists df st', fetch_trade_data env db st = (inr df, st') /\
                      (50 <= len df)%nat) /\
      (INFLUXDB_TOKEN env = "" ->
       fetch_trade_data env db st = (inr synthetic, st_syn)) /\
      (INFLUXDB_TOKEN env <> "" ->
       forall e,
         connect db (INFLUXDB_URL env) (INFLUXDB_TOKEN env) (INFLUXDB_ORG env) = inl e \/
         query db (flux_query env) = inl e \/
         close db = inl e ->
         fetch_trade_data env db st = (inr synthetic, st_syn)) /\
      (INFLUXDB_TOKEN env <> "" ->
       forall tables,
         connect db (INFLUXDB_URL env) (INFLUXDB_TOKEN env) (INFLUXDB_ORG env) = inr tt ->
         query db (flux_query env) = inr tables ->
         close db = inr tt ->
         let records := map trade_record (List.concat tables) in
         fetch_trade_data env db st =
           if (length records <? 50)%nat
           then (inr (concat (frame_of_records records) synthetic), st_syn)
           else (inr (frame_of_records records), st)).
Proof.
  destruct (fetch_trade_data_cases RandomState seed choice uniform random env db)
    as (synthetic & st_syn & Hsyn & Hcases).
  destruct (generate_synthetic_data_trades 500 (seed 0))
    as (trades & st' & Hg & Hn & Hb).
  rewrite (Hsyn (seed 0)) in Hg. inversion Hg; subst synthetic st'. clear Hg.
  change (0 <? 500)%Z with true in *. cbv iota in *.
  exists trades, st_syn. split; [exact Hn|]. split; [exact Hb|]. cbv zeta.
  assert (L : len (mkFrame synthetic_columns (map trade_row trades)) = 500%nat).
  { unfold len. cbn [rows]. rewrite length_map. exact Hn. }
  split; [exact Hsyn|]. split; [exact L|]. split.
  - intros records. unfold concat, len, frame_of_records. cbn [rows].
    split; [reflexivity|]. rewrite length_app, length_map, Hn. reflexivity.
  - intros st. destruct (Hcases st) as ((df & st1 & Hdf) & Ht & Hf & Ho).
    split; [|split; [exact Ht|split; [exact Hf|exact Ho]]].
    exists df, st1. split; [exact Hdf|].
    destruct (fetch_trade_data_result env db st)
      as (synthetic' & st_syn' & Hsyn' & Hres).
    assert (Es : synthetic' = mkFrame synthetic_columns (map trade_row trades)).
    { pose proof (Hsyn' st) as A. rewrite (Hsyn st) in A. congruence. }
    subst synthetic'.
    destruct Hres as [H|(tables & Htok & Hq & H)].
    + rewrite Hdf in H. inversion H; subst. rewrite L. lia.
    + rewrite Hdf in H.
      destruct (Nat.ltb_spec (length (map trade_record (List.concat tables))) 50)
        as [Hlt|Hge]; inversion H; subst.
      * unfold len, concat. cbn [rows]. rewrite length_app, (length_map trade_row), Hn.
        lia.
      * unfold len, frame_of_records. cbn [rows]. exact Hge.
Qed.

End SyntheticFacts.

(** *** The feature matrix *)

Lemma dict_get_restrict (f : string -> Cell) (ks : list string) (k : string) :
  In k ks -> dict_get (map (fun k' => (k', f k')) ks) k = Some (f k).
Proof.
  induction ks as [|k0 ks IH]; simpl; [tauto|].
  intros [E|Hin].
  - subst. rewrite String.eqb_refl. reflexivity.
  - destruct (k0 =? k)%string eqn:E.
    + apply String.eqb_eq in E. subst. reflexivity.
    + exact (IH Hin).
Qed.

(** Selecting columns: the labels asked for, the same rows, the same cells. *)
Lemma select_spec (df : DataFrame) (ks : list string) (X : DataFrame) :
  select df ks = inr X ->
  columns X = ks /\ len X = len df /\
  (forall k, In k ks -> mem k (columns df) = true) /\
  (forall k, In k ks -> get_column X k = get_column df k).
Proof.
  unfold select.
  destruct (filter (fun k => negb (mem k (columns df))) ks) eqn:F; [|discriminate].
  intros H. inversion H; subst; clear H. unfold len. simpl.
  assert (P : forall k, In k ks -> mem k (columns df) = true).
  { intros k Hin. destruct (mem k (columns df)) eqn:E; [reflexivity|].
    assert (Hf : In k (filter (fun k => negb (mem k (columns df))) ks)).
    { apply filter_In. rewrite E. auto. }
    rewrite F in Hf. destruct Hf. }
  repeat split; [apply length_map|exact P|].
  intros k Hin. unfold get_column. simpl.
  rewrite (P k Hin), (proj2 (mem_In k ks) Hin), map_map. f_equal.
  apply map_ext. intros d. unfold cell_at at 1, dict_get_default.
  rewrite (dict_get_restrict (fun k' => cell_at d k') ks k Hin). reflexivity.
Qed.

Lemma select_defined (df : DataFrame) (ks : list string) :
  (forall k, In k ks -> mem k (columns df) = true) ->
  exists X, select df ks = inr X.
Proof.
  intros P. unfold select.
  destruct (filter (fun k => negb (mem k (columns df))) ks) as [|k l] eqn:F;
    [eauto|].
  assert (Hf : In k (filter (fun k => negb (mem k (columns df))) ks))
    by (rewrite F; left; reflexivity).
  apply filter_In in Hf. destruct Hf as [Hin Hn]. rewrite (P k Hin) in Hn.
  discriminate Hn.
Qed.

Section FeatureFacts.

Variable RandomState : Type.
Variable uniform : float -> float -> RandomState -> float * RandomState.

Local Abbreviation uniform_array := (uniform_array RandomState uniform).
Local Abbreviation fill_features := (fill_features RandomState uniform).
Local Abbreviation prepare_features := (prepare_features RandomState uniform).

Lemma uniform_array_returns (low high : float) (n : nat) :
  forall st, exists xs st',
    uniform_array low high n st = (inr xs, st') /\ length xs = n.
Proof.
  induction n as [|n IH]; intros st; simpl.
  - unfold pure, ret. eauto.
  - unfold andthen, draw, pure, ret. destruct (uniform low high st) as [x st1].
    destruct (IH st1) as (xs & st2 & E & L). rewrite E.
    exists (x :: xs), st2. simpl. auto.
Qed.

(** When every feature is there, nothing is drawn and nothing changes. *)
Lemma fill_features_present (fs : list string) (df : DataFrame) (st : RandomState) :
  (forall f, In f fs -> mem f (columns df) = true) ->
  fill_features fs df st = (inr df, st).
Proof.
  induction fs as [|f fs IH]; intros P; simpl; [reflexivity|].
  rewrite (P f (or_introl eq_refl)). apply IH.
  intros f' Hin. apply P. right. exact Hin.
Qed.

(** Filling in features: the loop returns, keeps the rows and the columns
    that were there, and gives each absent feature a run of draws. *)
Lemma fill_features_spec (fs : list string) :
  forall df st, exists df' st',
    fill_features fs df st = (inr df', st') /\
    len df' = len df /\
    (forall k, mem k (columns df') = mem k (columns df) || mem k fs) /\
    (forall k, mem k (columns df) = true -> get_column df' k = get_column df k) /\
    (forall f, In f fs -> mem f (columns df) = false ->
               exists sa sb xs,
                 uniform_array 0 1 (len df) sa = (inr xs, sb) /\
                 get_column df' f = inr (map Num xs)).
Proof.
  induction fs as [|f fs IH]; intros df st; simpl.
  - exists df, st. unfold pure, ret. repeat split; try reflexivity.
    + intros k. rewrite orb_false_r. reflexivity.
    + intros f [].
  - destruct (mem f (columns df)) eqn:Hf.
    + destruct (IH df st) as (df' & st' & E & L & M & P & N).
      exists df', st'. repeat split; try assumption.
      * intros k. rewrite M. simpl.
        destruct (f =? k)%string eqn:Ek; [|reflexivity].
        apply String.eqb_eq in Ek. subst. rewrite Hf. reflexivity.
      * intros f' [Ef|Hin] Hn; [subst; congruence|]. exact (N f' Hin Hn).
    + unfold andthen at 1.
      destruct (uniform_array_returns 0 1 (len df) st) as (xs & st1 & Ex & Lx).
      rewrite Ex.
      assert (Lm : length (map Num xs) = len df) by (rewrite length_map; exact Lx).
      destruct (set_column_defined df f (map Num xs) Lm) as (df1 & Es).
      unfold andthen at 1, lift. rewrite Es.
      destruct (set_column_spec _ _ _ _ Es) as (L1 & _ & G1 & M1 & P1).
      destruct (IH df1 st1) as (df' & st' & E & L & M & P & N).
      exists df', st'. split; [exact E|]. split; [congruence|].
      assert (Mf : mem f (columns df1) = true).
      { rewrite M1, String.eqb_refl, orb_true_r. reflexivity. }
      split; [|split].
      * intros k. rewrite M, M1. simpl. rewrite (String.eqb_sym k f).
        rewrite orb_assoc. reflexivity.
      * intros k Hk. assert (Hne : k <> f) by (intros ->; congruence).
        rewrite P; [apply P1; assumption|].
        rewrite M1, Hk. reflexivity.
      * intros f' [Ef|Hin] Hn.
        -- subst f'. exists st, st1, xs. split; [exact Ex|].
           rewrite (P f Mf). exact G1.
        -- destruct (String.eqb_spec f' f) as [->|Hne].
           ++ exists st, st1, xs. split; [exact Ex|]. rewrite (P f Mf). exact G1.
           ++ rewrite <- L1. apply (N f' Hin). rewrite M1, Hn.
              apply String.eqb_neq in Hne. rewrite Hne. reflexivity.
Qed.

(** The steps a successful [prepare_features] went through. *)
Lemma prepare_features_steps df st X y st' :
  prepare_features df st = (inr (X, y), st') ->
  exists df1 df2 X0 X1 m s hist sd,
    (mem "win" (columns df) = true /\ df1 = df \/
     mem "win" (columns df) = false /\
     exists pnl pos, get_column df "pnl" = inr pnl /\
                     map_exc cell_gt0 pnl = inr pos /\
                     set_column df "win" (map bool_to_int pos) = inr df1) /\
    fill_features required_features df1 st = (inr df2, st') /\
    select df2 required_features = inr X0 /\
    get_column X0 "macd" = inr m /\
    get_column X0 "macd_signal" = inr s /\
    map2_exc cell_sub m s = inr hist /\
    set_column X0 "macd_histogram" hist = inr X1 /\
    get_column df2 "side" = inr sd /\
    set_column X1 "side_encoded"
      (map (fun c => bool_to_float (cell_eq_str c "BUY")) sd) = inr X /\
    get_column df2 "win" = inr y.
Proof.
  unfold TrainModel.prepare_features.
  fold required_features. unfold andthen at 1.
  intros H.
  assert (W : exists df1,
    (if mem "win" (columns df) then pure RandomState df
     else andthen RandomState (lift RandomState (get_column df "pnl"))
            (fun pnl => andthen RandomState (lift RandomState (map_exc cell_gt0 pnl))
               (fun pos => lift RandomState
                             (set_column df "win" (map bool_to_int pos))))) st
      = (inr df1, st) /\
    (mem "win" (columns df) = true /\ df1 = df \/
     mem "win" (columns df) = false /\
     exists pnl pos, get_column df "pnl" = inr pnl /\
                     map_exc cell_gt0 pnl = inr pos /\
                     set_column df "win" (map bool_to_int pos) = inr df1)).
  { revert H. destruct (mem "win" (columns df)) eqn:Hw.
    - intros _. exists df. split; [reflexivity|]. left. auto.
    - unfold andthen, lift.
      destruct (get_column df "pnl") as [e|pnl] eqn:Ep; [discriminate|].
      destruct (map_exc cell_gt0 pnl) as [e|pos] eqn:Eg; [discriminate|].
      destruct (set_column df "win" (map bool_to_int pos)) as [e|df1] eqn:Es;
        [discriminate|].
      intros _. exists df1. split; [reflexivity|]. right. split; [reflexivity|].
      exists pnl, pos. auto. }
  destruct W as (df1 & Ew & Hw). rewrite Ew in H.
  unfold andthen at 1 in H.
  destruct (fill_features_spec required_features df1 st)
    as (df2 & st2 & Ef & _). rewrite Ef in H.
  unfold andthen, lift, pure in H.
  destruct (select df2 _) as [e|X0] eqn:E0; [discriminate|].
  destruct (get_column X0 "macd") as [e|m] eqn:E1; [discriminate|].
  destruct (get_column X0 "macd_signal") as [e|s] eqn:E2; [discriminate|].
  destruct (map2_exc cell_sub m s) as [e|hist] eqn:E3; [discriminate|].
  destruct (set_column X0 "macd_histogram" hist) as [e|X1] eqn:E4; [discriminate|].
  destruct (get_column df2 "side") as [e|sd] eqn:E5; [discriminate|].
  destruct (set_column X1 "side_encoded" _) as [e|X2] eqn:E6; [discriminate|].
  destruct (get_column df2 "win") as [e|y2] eqn:E7; [discriminate|].
  inversion H; subst.
  exists df1, df2, X0, X1, m, s, hist, sd. repeat split; assumption.
Qed.


(** X17: whenever [prepare_features] returns, the feature matrix has as many
    rows as the frame it was given, and so has the target. *)
Theorem prepare_features_keeps_rows df st X y st' :
  prepare_features df st = (inr (X, y), st') ->
  len X = len df /\ length y = len df.
Proof.
  intros H.
  destruct (prepare_features_steps _ _ _ _ _ H)
    as (df1 & df2 & X0 & X1 & m & s & hist & sd
        & Hw & Ef & E0 & E1 & E2 & E3 & E4 & E5 & E6 & E7).
  assert (L1 : len df1 = len df).
  { destruct Hw as [[_ ->]|(_ & pnl & pos & _ & _ & Es)]; [reflexivity|].
    apply (set_column_spec _ _ _ _ Es). }
  destruct (fill_features_spec required_features df1 st)
    as (df2' & st2 & Ef' & L2 & _).
  rewrite Ef in Ef'. inversion Ef'; subst df2' st2.
  destruct (select_spec _ _ _ E0) as (_ & L0 & _).
  destruct (set_column_spec _ _ _ _ E4) as (L4 & _).
  destruct (set_column_spec _ _ _ _ E6) as (L6 & _).
  split; [congruence|].
  rewrite (get_column_length _ _ _ E7). congruence.
Qed.

(** X18: a frame that has a column for each of the eight features is not
    touched by the random generator: [prepare_features] leaves the random
    state as it found it, whether it returns or raises. *)
Theorem prepare_features_draws_nothing df st :
  (forall f, In f required_features -> mem f (columns df) = true) ->
  exists res, prepare_features df st = (res, st).
Proof.
  intros P. unfold TrainModel.prepare_features. fold required_features.
  unfold andthen at 1.
  assert (W : (exists e,
    (if mem "win" (columns df) then pure RandomState df
     else andthen RandomState (lift RandomState (get_column df "pnl"))
            (fun pnl => andthen RandomState (lift RandomState (map_exc cell_gt0 pnl))
               (fun pos => lift RandomState
                             (set_column df "win" (map bool_to_int pos))))) st
      = (inl e, st)) \/
    exists df1,
    (if mem "win" (columns df) then pure RandomState df
     else andthen RandomState (lift RandomState (get_column df "pnl"))
            (fun pnl => andthen RandomState (lift RandomState (map_exc cell_gt0 pnl))
               (fun pos => lift RandomState
                             (set_column df "win" (map bool_to_int pos))))) st
      = (inr df1, st) /\
    (forall f, In f required_features -> mem f (columns df1) = true)).
  { destruct (mem "win" (columns df)) eqn:Hw.
    - right. exists df. split; [reflexivity|exact P].
    - unfold andthen, lift.
      destruct (get_column df "pnl") as [e|pnl]; [left; eauto|].
      destruct (map_exc cell_gt0 pnl) as [e|pos]; [left; eauto|].
      destruct (set_column df "win" (map bool_to_int pos)) as [e|df1] eqn:Es;
        [left; eauto|].
      right. exists df1. split; [reflexivity|].
      intros f Hin. destruct (set_column_spec _ _ _ _ Es) as (_ & _ & _ & M & _).
      rewrite M, (P f Hin). reflexivity. }
  destruct W as [(e & Ew)|(df1 & Ew & P1)]; rewrite Ew; [eauto|].
  unfold andthen at 1. rewrite (fill_features_present _ _ _ P1).
  unfold andthen, lift, pure.
  repeat match goal with
    | |- context [match ?c with _ => _ end] =>
        lazymatch c with
        | context [match _ with _ => _ end] => fail
        | _ => destruct c
        end
    end; eauto.
Qed.

(** A feature the frame has no column for becomes a run of draws. *)
Lemma prepare_features_missing_feature df st X y st' f :
  prepare_features df st = (inr (X, y), st') ->
  In f required_features ->
  mem f (columns df) = false ->
  exists sa sb xs,
    uniform_array 0 1 (len df) sa = (inr xs, sb) /\
    get_column X f = inr (map Num xs).
Proof.
  intros H Hin Hf.
  destruct (prepare_features_steps _ _ _ _ _ H)
    as (df1 & df2 & X0 & X1 & m & s & hist & sd
        & Hw & Ef & E0 & E1 & E2 & E3 & E4 & E5 & E6 & E7).
  assert (Hne : f <> "win" /\ f <> "macd_histogram" /\ f <> "side_encoded").
  { simpl in Hin.
    repeat (destruct Hin as [<-|Hin]; [repeat split; discriminate|]).
    destruct Hin. }
  destruct Hne as (N1 & N2 & N3).
  assert (L1 : len df1 = len df /\ mem f (columns df1) = false).
  { destruct Hw as [[_ ->]|(_ & pnl & pos & _ & _ & Es)]; [auto|].
    destruct (set_column_spec _ _ _ _ Es) as (L & _ & _ & M & _).
    split; [exact L|]. rewrite M, Hf. apply String.eqb_neq in N1.
    rewrite N1. reflexivity. }
  destruct L1 as [L1 Hf1].
  destruct (fill_features_spec required_features df1 st)
    as (df2' & st2 & Ef' & _ & _ & _ & N).
  rewrite Ef in Ef'. inversion Ef'; subst df2' st2.
  destruct (N f Hin Hf1) as (sa & sb & xs & Ex & G2).
  exists sa, sb, xs. rewrite <- L1. split; [exact Ex|].
  destruct (select_spec _ _ _ E0) as (C0 & _ & _ & G0).
  destruct (set_column_spec _ _ _ _ E4) as (_ & _ & _ & M4 & P4).
  destruct (set_column_spec _ _ _ _ E6) as (_ & _ & _ & _ & P6).
  assert (M0 : mem f (columns X0) = true).
  { rewrite C0. apply mem_In. exact Hin. }
  rewrite (P6 f N3); [|rewrite M4, M0; reflexivity].
  rewrite (P4 f N2 M0), (G0 f Hin). exact G2.
Qed.

(** X19: a feature the frame has no column for is made up: the column of the
    feature matrix is a run of as many draws of [uniform(0, 1)] as the frame
    has rows, whatever the trades were. *)
Theorem prepare_features_invents_missing_features df st X y st' f :
  prepare_features df st = (inr (X, y), st') ->
  In f required_features ->
  mem f (columns df) = false ->
  exists sa sb xs,
    uniform_array 0 1 (len df) sa = (inr xs, sb) /\
    get_column X f = inr (map Num xs).
Proof. exact (prepare_features_missing_feature df st X y st' f). Qed.

Lemma map_exc_Forall2 {A B} (f : A -> Exc B) (l : list A) :
  forall bs, map_exc f l = inr bs -> Forall2 (fun a b => f a = inr b) l bs.
Proof.
  induction l as [|a l IH]; simpl; intros bs.
  - intros H. inversion H. constructor.
  - unfold bind. destruct (f a) as [e|b] eqn:E; [discriminate|].
    destruct (map_exc f l) as [e|bs'] eqn:E'; [discriminate|].
    intros H. inversion H; subst. constructor; [exact E|apply IH; reflexivity].
Qed.

Lemma profit_labels (pnl : Series) (pos : list bool) :
  Forall2 (fun c b => cell_gt0 c = inr b) pnl pos ->
  Forall2 (fun c l =>
             match c with
             | Num x => l = Int (if x >? 0 then 1 else 0)
             | Int n => l = Int (if (0 <? n)%Z then 1 else 0)
             | PyNone => l = Int 0
             | Str _ | Time _ => False
             end) pnl (map bool_to_int pos).
Proof.
  induction 1 as [|c b pnl pos Hc _ IH]; simpl; constructor; [|exact IH].
  unfold bool_to_int.
  destruct c; simpl in Hc; try discriminate Hc; inversion Hc; reflexivity.
Qed.

(** X20: for a frame without a win column the target is derived from the
    profit, row by row: the label is 1 when the pnl is a number greater than
    0, and 0 when it is a number that is not (NaN included) or is missing
    ([None]); a frame that is accepted has no other pnl. *)
Theorem prepare_features_derives_labels df st X y st' :
  prepare_features df st = (inr (X, y), st') ->
  mem "win" (columns df) = false ->
  exists pnl,
    get_column df "pnl" = inr pnl /\
    Forall2 (fun c l =>
               match c with
               | Num x => l = Int (if x >? 0 then 1 else 0)
               | Int n => l = Int (if (0 <? n)%Z then 1 else 0)
               | PyNone => l = Int 0
               | Str _ | Time _ => False
               end) pnl y.
Proof.
  intros H Hw0.
  destruct (prepare_features_steps _ _ _ _ _ H)
    as (df1 & df2 & X0 & X1 & m & s & hist & sd
        & Hw & Ef & E0 & E1 & E2 & E3 & E4 & E5 & E6 & E7).
  destruct Hw as [[Hw _]|(_ & pnl & pos & Ep & Eg & Es)]; [congruence|].
  exists pnl. split; [exact Ep|].
  destruct (set_column_spec _ _ _ _ Es) as (_ & _ & G & M & _).
  destruct (fill_features_spec required_features df1 st)
    as (df2' & st2 & Ef' & _ & _ & P & _).
  rewrite Ef in Ef'. inversion Ef'; subst df2' st2.
  rewrite P in E7; [|rewrite M, String.eqb_refl, orb_true_r; reflexivity].
  rewrite G in E7. inversion E7.
  exact (profit_labels _ _ (map_exc_Forall2 _ _ _ Eg)).
Qed.

(** X21: a frame with neither a win nor a pnl column cannot be prepared:
    [prepare_features] raises KeyError for pnl before anything is drawn. *)
Theorem prepare_features_without_outcome df st :
  mem "win" (columns df) = false ->
  mem "pnl" (columns df) = false ->
  prepare_features df st = (inl (key_error "pnl"), st).
Proof.
  intros Hw Hp. unfold TrainModel.prepare_features, andthen, lift, get_column.
  rewrite Hw, Hp. reflexivity.
Qed.

(** X22: a frame that [prepare_features] accepts has a side column, and a win
    or a pnl column. *)
Theorem prepare_features_needs_side_and_outcome df st X y st' :
  prepare_features df st = (inr (X, y), st') ->
  mem "side" (columns df) = true /\
  (mem "win" (columns df) = true \/ mem "pnl" (columns df) = true).
Proof.
  intros H.
  destruct (prepare_features_steps _ _ _ _ _ H)
    as (df1 & df2 & X0 & X1 & m & s & hist & sd
        & Hw & Ef & E0 & E1 & E2 & E3 & E4 & E5 & E6 & E7).
  destruct (fill_features_spec required_features df1 st)
    as (df2' & st2 & Ef' & _ & M2 & _).
  rewrite Ef in Ef'. inversion Ef'; subst df2' st2.
  assert (S2 : mem "side" (columns df2) = true).
  { unfold get_column in E5. destruct (mem "side" (columns df2));
      [reflexivity|discriminate]. }
  rewrite M2 in S2. simpl in S2. rewrite orb_false_r in S2.
  destruct Hw as [[Hw ->]|(_ & pnl & pos & Ep & _ & Es)].
  - split; [exact S2|left; exact Hw].
  - destruct (set_column_spec _ _ _ _ Es) as (_ & _ & _ & M & _).
    rewrite M in S2. simpl in S2. rewrite orb_false_r in S2.
    split; [exact S2|right].
    unfold get_column in Ep. destruct (mem "pnl" (columns df));
      [reflexivity|discriminate].
Qed.

End FeatureFacts.

(** *** Complete data *)

Lemma map2_exc_sub_nums {A} (a b : A -> float) (l : list A) :
  map2_exc cell_sub (map (fun t => Num (a t)) l) (map (fun t => Num (b t)) l) =
    inr (map (fun t => Num (a t - b t)) l).
Proof.
  induction l as [|t l IH]; simpl; [reflexivity|].
  unfold bind, ret. rewrite IH. reflexivity.
Qed.

Lemma zip_set_map {A} (f : A -> Dict) (g : A -> Cell) (k : string) (l : list A) :
  zip_set (map f l) k (map g l) = Some (map (fun t => dict_set (f t) k (g t)) l).
Proof.
  induction l as [|t l IH]; simpl; [reflexivity|]. rewrite IH. reflexivity.
Qed.

Lemma set_column_map {A} (cols : list string) (f : A -> Dict) (g : A -> Cell)
      (k : string) (l : list A) :
  set_column (mkFrame cols (map f l)) k (map g l) =
    inr (mkFrame (if mem k cols then cols else cols ++ [k])
           (map (fun t => dict_set (f t) k (g t)) l)).
Proof. unfold set_column. cbn [rows columns]. rewrite zip_set_map. reflexivity. Qed.

(** What [prepare_features] makes of complete trades. *)
Lemma prepare_features_complete
        RandomState uniform (trades : list Trade) (st : RandomState) :
  trades <> [] ->
  exists X,
    prepare_features RandomState uniform
      (frame_of_records (map trade_row trades)) st =
      (inr (X, map trade_label trades), st) /\
    columns X = training_columns /\
    len X = length trades /\
    values X = map training_values trades.
Proof.
  intros Hne. rewrite frame_of_trades.
  destruct trades as [|t0 l0]; [congruence|]. clear Hne.
  set (trades := t0 :: l0).
  unfold prepare_features. unfold andthen at 1. cbn [columns]. 
  change (mem "win" synthetic_columns) with true. cbv iota. unfold pure at 1.
  unfold ret at 1. cbv beta iota. unfold andthen at 1.
  rewrite fill_features_present.
  2:{ intros f Hin. simpl in Hin. cbn [columns].
      repeat (destruct Hin as [<-|Hin]; [reflexivity|]). destruct Hin. }
  unfold andthen, lift, pure.
  set (restrict := fun d : Dict =>
         map (fun k => (k, cell_at d k)) required_features).
  assert (S : select (mkFrame synthetic_columns (map trade_row trades))
                required_features =
              inr (mkFrame required_features (map restrict (map trade_row trades))))
    by reflexivity.
  unfold required_features in S at 1. rewrite S. clear S.
  rewrite map_map.
  assert (G1 : get_column
                 (mkFrame required_features
                    (map (fun t => restrict (trade_row t)) trades)) "macd" =
               inr (map (fun t : Trade => Num (macd (fst (fst t)))) trades)).
  { unfold get_column. cbn [columns rows].
    change (mem "macd" required_features) with true. cbv iota.
    rewrite map_map. unfold ret. f_equal. apply map_ext.
    intros [[r pnl] win]. reflexivity. }
  assert (G2 : get_column
                 (mkFrame required_features
                    (map (fun t => restrict (trade_row t)) trades)) "macd_signal" =
               inr (map (fun t : Trade => Num (macd_signal (fst (fst t)))) trades)).
  { unfold get_column. cbn [columns rows].
    change (mem "macd_signal" required_features) with true. cbv iota.
    rewrite map_map. unfold ret. f_equal. apply map_ext.
    intros [[r pnl] win]. reflexivity. }
  rewrite G1, G2, map2_exc_sub_nums. clear G1 G2.
  rewrite (set_column_map required_features (fun t => restrict (trade_row t))
             (fun t : Trade => Num (macd (fst (fst t)) - macd_signal (fst (fst t))))).
  change (mem "macd_histogram" required_features) with false. cbv iota.
  assert (G3 : get_column (mkFrame synthetic_columns (map trade_row trades)) "side" =
               inr (map (fun t : Trade => Str (side (fst (fst t)))) trades)).
  { unfold get_column. cbn [columns rows].
    change (mem "side" synthetic_columns) with true. cbv iota.
    rewrite map_map. unfold ret. f_equal. apply map_ext.
    intros [[r pnl] win]. reflexivity. }
  rewrite G3. clear G3. rewrite map_map.
  rewrite (set_column_map (required_features ++ ["macd_histogram"])
             (fun t => dict_set (restrict (trade_row t)) "macd_histogram"
                         (Num (macd (fst (fst t)) - macd_signal (fst (fst t)))))
             (fun t : Trade =>
                bool_to_float (cell_eq_str (Str (side (fst (fst t)))) "BUY"))).
  change (mem "side_encoded" (required_features ++ ["macd_histogram"])) with false.
  cbv iota.
  assert (G4 : get_column (mkFrame synthetic_columns (map trade_row trades)) "win" =
               inr (map trade_label trades)).
  { unfold get_column. cbn [columns rows].
    change (mem "win" synthetic_columns) with true. cbv iota.
    rewrite map_map. unfold ret. f_equal. apply map_ext.
    intros [[r pnl] win]. reflexivity. }
  rewrite G4. clear G4.
  eexists. split; [reflexivity|]. split; [reflexivity|].
  split.
  - unfold len. cbn [rows]. apply length_map.
  - unfold values. cbn [rows columns]. rewrite map_map. apply map_ext.
    intros [[r pnl] win]. reflexivity.
Qed.

(** X23: on a non-empty frame of complete trades, such as the synthetic data
    set, [prepare_features] returns without drawing anything: the target is
    the stored labels and each row of the feature matrix is the trade's
    indicators in the order rsi, macd, macd_signal, ema_alignment,
    atr_percent, volume_ratio, cvd, adx, followed by macd - macd_signal and
    the side as 1.0 for BUY and 0.0 otherwise. *)
Theorem prepare_features_on_complete_trades
        RandomState uniform (trades : list Trade) (st : RandomState) :
  trades <> [] ->
  exists X,
    prepare_features RandomState uniform
      (frame_of_records (map trade_row trades)) st =
      (inr (X, map trade_label trades), st) /\
    columns X = training_columns /\
    len X = length trades /\
    values X = map training_values trades.
Proof. exact (prepare_features_complete RandomState uniform trades st). Qed.

Lemma prepare_features_on_complete_trades_witness :
  exists X,
    prepare_features nat TrainSamples.counter_uniform
      (frame_of_records
         (map trade_row [(Samples.buy_request "BTCUSDT", 12.5, 1%Z)])) 7%nat =
      (inr (X, [Int 1]), 7%nat) /\
    columns X = training_columns /\
    len X = 1%nat /\
    values X = [training_values (Samples.buy_request "BTCUSDT", 12.5, 1%Z)].
Proof.
  apply (prepare_features_on_complete_trades nat TrainSamples.counter_uniform
           [(Samples.buy_request "BTCUSDT", 12.5, 1%Z)] 7%nat).
  discriminate.
Defined.

(** X24: the training row of a signal holds the ten serving features in
    another order: the first three and the last agree, the histogram, fourth
    at serving time, is ninth in the training row, and the five features
    after it come one place earlier. *)
Theorem training_row_permutes_serving_features
        RandomState uniform (st : RandomState) request pnl win :
  exists X y f0 f1 f2 f3 f4 f5 f6 f7 f8 f9,
    prepare_features RandomState uniform
      (frame_of_records [TrainSamples.training_record request pnl win]) st =
      (inr (X, y), st) /\
    features request = [[f0; f1; f2; f3; f4; f5; f6; f7; f8; f9]] /\
    values X =
      [[Num f0; Num f1; Num f2; Num f4; Num f5; Num f6; Num f7; Num f8;
        Num f3; Num f9]].
Proof.
  destruct (prepare_features_row RandomState uniform st request pnl win)
    as (X & y & H & _ & V).
  exists X, y. do 10 eexists. split; [exact H|]. split; [reflexivity|exact V].
Qed.

(** *** Labels and profits of synthetic trades *)

Section LabelFacts.

Variable RandomState : Type.
Variable seed : Z -> RandomState.
Variable choice : list string -> RandomState -> string * RandomState.
Variable uniform : float -> float -> RandomState -> float * RandomState.
Variable random : RandomState -> float * RandomState.

Local Abbreviation synthetic_trade := (synthetic_trade RandomState choice uniform random).
Local Abbreviation synthetic_loop := (synthetic_loop RandomState choice uniform random).
Local Abbreviation generate_synthetic_data :=
  (generate_synthetic_data RandomState seed choice uniform random).

Lemma synthetic_loop_forall (P : Trade -> Prop) :
  (forall st, exists t st', synthetic_trade st = (inr (trade_row t), st') /\ P t) ->
  forall n data st, exists trades st',
    synthetic_loop n data st = (inr (data ++ map trade_row trades), st') /\
    length trades = n /\ Forall P trades.
Proof.
  intros HP. induction n as [|n IH]; intros data st; simpl.
  - exists [], st. unfold pure, ret. rewrite app_nil_r. auto.
  - unfold andthen at 1.
    destruct (HP st) as (t & st1 & Ht & Hb). rewrite Ht.
    destruct (IH (data ++ [trade_row t]) st1) as (trades & st2 & Hl & Hn & Hf).
    exists (t :: trades), st2. rewrite Hl, <- app_assoc. simpl.
    repeat split; [congruence|constructor; assumption].
Qed.

Hypothesis profit_is_positive : forall st, (fst (uniform 5 50 st) >? 0) = true.
Hypothesis loss_is_not_positive : forall st, (fst (uniform (-30) (-5) st) >? 0) = false.

Lemma synthetic_trade_label_matches (st : RandomState) :
  exists t st', synthetic_trade st = (inr (trade_row t), st') /\
                label_matches_profit t.
Proof.
  unfold TrainModel.synthetic_trade, andthen, draw, pure, ret.
  destruct (choice ["BUY"; "SELL"] st) as [side s1].
  destruct (uniform 20 80 s1) as [rsi s2].
  destruct (uniform (-0.5) 0.5 s2) as [macd s3].
  destruct (uniform (-0.2) 0.2 s3) as [delta s4].
  destruct (uniform (-2) 2 s4) as [ema s5].
  destruct (uniform 0.5 3.0 s5) as [atr s6].
  destruct (uniform 0.5 2.0 s6) as [vol s7].
  destruct (uniform (-1000) 1000 s7) as [cvd s8].
  destruct (uniform 10 50 s8) as [adx s9].
  destruct (uniform 20000 100000 s9) as [price s10].
  destruct (random s10) as [u s11].
  destruct (u <? win_prob side rsi adx cvd vol ema) eqn:Hw.
  - pose proof (profit_is_positive s11) as Hp.
    destruct (uniform 5 50 s11) as [pnl s12]. simpl in Hp.
    exists (mkRequest "" side rsi macd (macd + delta) ema atr vol cvd adx price,
            pnl, 1%Z), s12.
    split; [reflexivity|]. simpl. rewrite Hp. reflexivity.
  - pose proof (loss_is_not_positive s11) as Hp.
    destruct (uniform (-30) (-5) s11) as [pnl s12]. simpl in Hp.
    exists (mkRequest "" side rsi macd (macd + delta) ema atr vol cvd adx price,
            pnl, 0%Z), s12.
    split; [reflexivity|]. simpl. rewrite Hp. reflexivity.
Qed.

(** X25: when the generator's draws from [uniform(5, 50)] are positive and
    those from [uniform(-30, -5)] are not, every row of the synthetic data
    set carries the label its profit gives: win is 1 exactly when pnl is
    greater than 0. *)
Theorem synthetic_labels_match_profit (n_samples : Z) (st : RandomState) :
  exists trades st',
    generate_synthetic_data n_samples st =
      (inr (frame_of_records (map trade_row trades)), st') /\
    length trades = Z.to_nat n_samples /\
    Forall label_matches_profit trades.
Proof.
  unfold TrainModel.generate_synthetic_data, andthen.
  destruct (synthetic_loop_forall label_matches_profit synthetic_trade_label_matches
              (Z.to_nat n_samples) [] (seed 42))
    as (trades & st' & Hl & Hn & Hf).
  exists trades, st'. rewrite Hl. simpl. unfold pure, ret. auto.
Qed.

End LabelFacts.

Lemma counter_uniform_cases (low high : float) (P : float -> Prop) :
  (forall k : nat, (k < 8)%nat ->
     P (low + (high - low) * (Decimal.of_Z (Z.of_nat k) / 8))) ->
  forall st, P (fst (TrainSamples.counter_uniform low high st)).
Proof.
  intros H st. unfold TrainSamples.counter_uniform, TrainSamples.counter_random.
  cbn [fst]. apply H. apply Nat.mod_upper_bound. discriminate.
Qed.

Lemma synthetic_labels_match_profit_witness :
  exists trades st',
    generate_synthetic_data nat TrainSamples.counter_seed TrainSamples.counter_choice
      TrainSamples.counter_uniform TrainSamples.counter_random 3 0%nat =
      (inr (frame_of_records (map trade_row trades)), st') /\
    length trades = Z.to_nat 3 /\
    Forall label_matches_profit trades.
Proof.
  apply (synthetic_labels_match_profit nat TrainSamples.counter_seed
           TrainSamples.counter_choice TrainSamples.counter_uniform
           TrainSamples.counter_random).
  - apply (counter_uniform_cases 5 50 (fun x => (x >? 0) = true)).
    intros k Hk. do 8 (destruct k as [|k]; [vm_compute; reflexivity|]). lia.
  - apply (counter_uniform_cases (-30) (-5) (fun x => (x >? 0) = false)).
    intros k Hk. do 8 (destruct k as [|k]; [vm_compute; reflexivity|]). lia.
Defined.

(** *** Runs of [prepare_features] *)

Import FrameSamples.

(** Takes a concrete run of [prepare_features] apart: it returned. *)
Ltac run_prepare X y st' E :=
  match goal with
  | |- context [prepare_features ?R ?u ?df ?st] =>
      destruct (prepare_features R u df st) as [[e|[X y]] st'] eqn:E;
      [vm_compute in E; discriminate E|]
  end.

Lemma prepare_features_keeps_rows_witness :
  match prepare_features nat TrainSamples.counter_uniform fetched_frame 0%nat with
  | (inr (X, y), _) => len X = len fetched_frame /\ length y = len fetched_frame
  | (inl _, _) => False
  end.
Proof.
  run_prepare X y st' E.
  exact (prepare_features_keeps_rows nat TrainSamples.counter_uniform
           fetched_frame 0%nat X y st' E).
Defined.

Lemma prepare_features_draws_nothing_witness :
  exists res,
    prepare_features nat TrainSamples.counter_uniform complete_frame 7%nat = (res, 7%nat).
Proof.
  apply (prepare_features_draws_nothing nat TrainSamples.counter_uniform
           complete_frame 7%nat).
  intros f Hin. simpl in Hin.
  repeat (destruct Hin as [<-|Hin]; [reflexivity|]). destruct Hin.
Defined.

Lemma prepare_features_invents_missing_features_witness :
  match prepare_features nat TrainSamples.counter_uniform fetched_frame 0%nat with
  | (inr (X, y), _) =>
      exists sa sb xs,
        uniform_array nat TrainSamples.counter_uniform 0 1 (len fetched_frame) sa =
          (inr xs, sb) /\
        get_column X "rsi" = inr (map Num xs)
  | (inl _, _) => False
  end.
Proof.
  run_prepare X y st' E.
  apply (prepare_features_invents_missing_features nat TrainSamples.counter_uniform
           fetched_frame 0%nat X y st' "rsi" E).
  - left. reflexivity.
  - reflexivity.
Defined.

Lemma prepare_features_derives_labels_witness :
  match prepare_features nat TrainSamples.counter_uniform null_pnl_frame 0%nat with
  | (inr (X, y), _) =>
      y = [Int 0; Int 1; Int 0] /\
      exists pnl,
        get_column null_pnl_frame "pnl" = inr pnl /\
        Forall2 (fun c l =>
                   match c with
                   | Num x => l = Int (if x >? 0 then 1 else 0)
                   | Int n => l = Int (if (0 <? n)%Z then 1 else 0)
                   | PyNone => l = Int 0
                   | Str _ | Time _ => False
                   end) pnl y
  | (inl _, _) => False
  end.
Proof.
  run_prepare X y st' E. split.
  - vm_compute in E. inversion E. reflexivity.
  - apply (prepare_features_derives_labels nat TrainSamples.counter_uniform
             null_pnl_frame 0%nat X y st' E).
    reflexivity.
Defined.

Lemma prepare_features_without_outcome_witness :
  prepare_features nat TrainSamples.counter_uniform bare_frame 0%nat =
    (inl (key_error "pnl"), 0%nat).
Proof.
  apply (prepare_features_without_outcome nat TrainSamples.counter_uniform
           bare_frame 0%nat); reflexivity.
Defined.

Lemma prepare_features_needs_side_and_outcome_witness :
  match prepare_features nat TrainSamples.counter_uniform fetched_frame 0%nat with
  | (inr (X, y), _) =>
      mem "side" (columns fetched_frame) = true /\
      (mem "win" (columns fetched_frame) = true \/
       mem "pnl" (columns fetched_frame) = true)
  | (inl _, _) => False
  end.
Proof.
  run_prepare X y st' E.
  exact (prepare_features_needs_side_and_outcome nat TrainSamples.counter_uniform
           fetched_frame 0%nat X y st' E).
Defined.

(** X28: whatever columns the frame has, the feature matrix of a successful
    [prepare_features] has exactly the ten training columns, in the order
    rsi, macd, macd_signal, ema_alignment, atr_percent, volume_ratio, cvd,
    adx, macd_histogram, side_encoded. *)
Theorem prepare_features_matrix_columns RandomState uniform df st X y st' :
  prepare_features RandomState uniform df st = (inr (X, y), st') ->
  columns X = Shapes.training_columns.
Proof. exact (prepare_features_columns RandomState uniform df st X y st'). Qed.

Lemma prepare_features_matrix_columns_witness :
  match prepare_features nat TrainSamples.counter_uniform fetched_frame 0%nat with
  | (inr (X, y), _) => columns X = Shapes.training_columns
  | (inl _, _) => False
  end.
Proof.
  run_prepare X y st' E.
  exact (prepare_features_matrix_columns nat TrainSamples.counter_uniform
           fetched_frame 0%nat X y st' E).
Defined.

(** X29: without a token the script's data is ready for training: the 500
    synthetic rows come back from [fetch_trade_data], and [prepare_features]
    turns them, without drawing anything more, into a feature matrix of 500
    rows and the ten training columns and a target of 500 labels, each 0 or
    1. *)
Theorem synthetic_data_is_ready_for_training
        RandomState seed choice uniform random
        (env : Environ) (db : InfluxDB) (st : RandomState) :
  INFLUXDB_TOKEN env = "" ->
  exists df st1 X y,
    fetch_trade_data RandomState seed choice uniform random env db st =
      (inr df, st1) /\
    prepare_features RandomState uniform df st1 = (inr (X, y), st1) /\
    len X = 500%nat /\ columns X = Shapes.training_columns /\
    length y = 500%nat /\
    Forall (fun c => c = Int 0 \/ c = Int 1) y.
Proof.
  intros Htok. unfold fetch_trade_data. rewrite Htok. simpl.
  destruct (generate_synthetic_data_trades RandomState seed choice uniform random
              500 st) as (trades & st1 & Hg & Hn & Hb).
  assert (Hne : trades <> []) by (intros ->; discriminate Hn).
  destruct (prepare_features_complete RandomState uniform trades st1 Hne)
    as (X & Hp & Hc & Hl & _).
  rewrite frame_of_trades in Hp. simpl in Hg.
  destruct trades as [|t l]; [congruence|].
  exists (mkFrame Shapes.synthetic_columns (map Shapes.trade_row (t :: l))), st1,
         X, (map Shapes.trade_label (t :: l)).
  split; [exact Hg|]. split; [exact Hp|]. split; [rewrite Hl; exact Hn|].
  split; [exact Hc|]. split; [rewrite length_map; exact Hn|].
  apply Forall_map. revert Hb. apply Forall_impl.
  intros [[r pnl] win]. simpl. intros [->| ->]; auto.
Qed.

Lemma synthetic_data_is_ready_for_training_witness :
  exists df st1 X y,
    fetch_trade_data nat TrainSamples.counter_seed TrainSamples.counter_choice
      TrainSamples.counter_uniform TrainSamples.counter_random
      no_environ TrainSamples.small_db 0%nat = (inr df, st1) /\
    prepare_features nat TrainSamples.counter_uniform df st1 = (inr (X, y), st1) /\
    len X = 500%nat /\ columns X = Shapes.training_columns /\
    length y = 500%nat /\
    Forall (fun c => c = Int 0 \/ c = Int 1) y.
Proof.
  apply (synthetic_data_is_ready_for_training nat TrainSamples.counter_seed
           TrainSamples.counter_choice TrainSamples.counter_uniform
           TrainSamples.counter_random no_environ TrainSamples.small_db 0%nat).
  reflexivity.
Defined.

(** ** The log analysis *)

Import AnalyzeLogs.

Lemma read_lines_without_config strip (lines : list string) :
  Forall (fun l => is_config l = false) lines ->
  forall t,
    fold_left (read_line strip) lines t =
      mkTally (current_config t) (signal_count t + count_signals lines)
              (max_signals t) (best_config t).
Proof.
  induction lines as [|l lines IH]; intros H t.
  - simpl. unfold count_signals. simpl. rewrite Z.add_0_r. destruct t; reflexivity.
  - inversion H as [|? ? Hl Hr]; subst. simpl.
    rewrite (IH Hr). unfold read_line, count_signals. simpl.
    unfold is_signal. unfold is_config in Hl. rewrite Hl.
    fold (is_config l). unfold is_config. rewrite Hl. simpl.
    destruct (contains "SIGNAL" l); simpl; f_equal; lia.
Qed.

(** X26: a log without any config line reports -1 signals and an empty
    config, however many signal lines it has. *)
Theorem analyze_lines_without_config strip (lines : list string) :
  Forall (fun l => is_config l = false) lines ->
  analyze_lines strip lines = (-1, "")%Z.
Proof.
  intros H. unfold analyze_lines. rewrite (read_lines_without_config strip _ H).
  reflexivity.
Qed.

Lemma analyze_lines_without_config_witness :
  analyze_lines plain_strip ["SIGNAL BUY BTCUSDT"; "heartbeat"; "SIGNAL SELL"] =
    (-1, "")%Z.
Proof.
  apply (analyze_lines_without_config plain_strip).
  repeat constructor.
Defined.

(** X27: one more config in the log.  When the log goes on with a config
    line and lines under it, the new config is reported if it has strictly
    more signals than the best so far, and the earlier result stands
    otherwise, also on a tie; signals are the lines under the config that
    contain SIGNAL, and the config is reported stripped. *)
Theorem analyze_lines_one_more_config strip (lines : list string)
        (config : string) (body : list string) :
  is_config config = true ->
  strip config <> "" ->
  Forall (fun l => is_config l = false) body ->
  analyze_lines strip (lines ++ config :: body) =
    (if (count_signals body >? fst (analyze_lines strip lines))%Z
     then (count_signals body, strip config)
     else analyze_lines strip lines).
Proof.
  intros Hc Hs Hb. unfold analyze_lines.
  rewrite fold_left_app. cbn [fold_left].
  rewrite (read_lines_without_config strip _ Hb).
  set (s := fold_left (read_line strip) lines start).
  assert (E : read_line strip s config =
              mkTally (strip config) 0 (max_signals (keep_best s))
                      (best_config (keep_best s))).
  { unfold read_line. unfold is_config in Hc. rewrite Hc. reflexivity. }
  rewrite E. cbn [current_config signal_count max_signals best_config].
  unfold keep_best at 1 4. cbn [current_config signal_count max_signals best_config].
  apply String.eqb_neq in Hs. rewrite Hs. cbn [negb andb fst]. rewrite Z.add_0_l.
  destruct (count_signals body >? max_signals (keep_best s))%Z; reflexivity.
Qed.

Lemma analyze_lines_one_more_config_witness :
  analyze_lines plain_strip sample_log = (2, "Strategy Config Loaded: fast")%Z.
Proof.
  apply (analyze_lines_one_more_config plain_strip
           [ "SIGNAL before any config"; "Strategy Config Loaded: fast";
             "SIGNAL BUY BTCUSDT"; "heartbeat"; "SIGNAL SELL ETHUSDT" ]
           "  Strategy Config Loaded: slow  "
           [ "SIGNAL BUY BTCUSDT"; "SIGNAL BUY ETHUSDT" ]).
  - reflexivity.
  - discriminate.
  - repeat constructor.
Defined.

(** *** Fetched records *)

Lemma fetched_records_columns (records : list FluxRecord) :
  fold_left (fun acc d => union_labels acc (map fst d)) (map trade_record records)
    Shapes.fetched_columns = Shapes.fetched_columns.
Proof.
  induction records as [|r l IH]; simpl; [reflexivity|exact IH].
Qed.

(** X30: real data is trained on noise.  A frame of records fetched from
    InfluxDB has the columns timestamp, symbol, side, pnl, entry_price and
    exit_price only, so whenever [prepare_features] accepts it, each of the
    eight indicator columns of the feature matrix is a run of draws of
    [uniform(0, 1)], as many as there are records. *)
Theorem fetched_trades_train_on_noise
        RandomState uniform (records : list FluxRecord) (st : RandomState) X y st' :
  records <> [] ->
  prepare_features RandomState uniform
    (frame_of_records (map trade_record records)) st = (inr (X, y), st') ->
  columns (frame_of_records (map trade_record records)) = Shapes.fetched_columns /\
  forall f, In f required_features ->
    exists sa sb xs,
      uniform_array RandomState uniform 0 1 (length records) sa = (inr xs, sb) /\
      get_column X f = inr (map Num xs).
Proof.
  intros Hne H.
  assert (C : columns (frame_of_records (map trade_record records)) =
              Shapes.fetched_columns).
  { unfold frame_of_records. cbn [columns].
    destruct records as [|r l]; [congruence|]. simpl.
    apply fetched_records_columns. }
  split; [exact C|]. intros f Hin.
  assert (L : len (frame_of_records (map trade_record records)) = length records).
  { unfold len, frame_of_records. cbn [rows]. apply length_map. }
  rewrite <- L.
  apply (prepare_features_missing_feature RandomState uniform _ st X y st' f H Hin).
  rewrite C. simpl in Hin.
  repeat (destruct Hin as [<-|Hin]; [reflexivity|]). destruct Hin.
Qed.

Lemma fetched_trades_train_on_noise_witness :
  match prepare_features nat TrainSamples.counter_uniform
          FrameSamples.fetched_frame 0%nat with
  | (inr (X, y), _) =>
      columns FrameSamples.fetched_frame = Shapes.fetched_columns /\
      forall f, In f required_features ->
        exists sa sb xs,
          uniform_array nat TrainSamples.counter_uniform 0 1 2 sa = (inr xs, sb) /\
          get_column X f = inr (map Num xs)
  | (inl _, _) => False
  end.
Proof.
  run_prepare X y st' E.
  apply (fetched_trades_train_on_noise nat TrainSamples.counter_uniform
           [ mkFlux 1700000000
               [ ("symbol", Str "BTCUSDT"); ("side", Str "BUY"); ("pnl", Num 12.5);
                 ("entry_price", Num 50000); ("exit_price", Num 50500) ];
             mkFlux 1700003600
               [ ("symbol", Str "ETHUSDT"); ("side", Str "SELL"); ("pnl", Num (-4));
                 ("entry_price", Num 1800); ("exit_price", Num 1810) ] ]
           0%nat X y st').
  - discriminate.
  - exact E.
Defined.
